(** * Emit log platform: the web client's service layer, the logs page and
      the ingestion/query contract it talks to.

    The client code (TypeScript) is embedded function by function:
    - [JS]       the JavaScript values the code manipulates (JSON documents,
                 [undefined], truthiness, [String(v)], property reads);
    - [Http]     requests, responses and a small state-and-exception monad
                 that records every request handed to [fetch];
    - [ApiService], [LogService], [AuthService]  the service classes;
    - [LogsPage] the pagination state machine of the logs page.
    The ingestion gateway and the query service are not part of the client;
    they are described in [Backend]. *)

From stdpp Require Import base option list gmap strings pretty.

Set Warnings "-register-all".

Open Scope string_scope.
Open Scope Z_scope.
Open Scope list_scope.

(* ===================================================================== *)
(** ** JavaScript values *)
(* ===================================================================== *)
Module JS.

(** A JavaScript value as the client sees it: a JSON document or
    [undefined].  Numbers are the integers (page numbers, sizes, counts,
    HTTP status codes): [VNum n] stands for the number [n] when [n] is a
    safe integer, see [safe]; fractions, [NaN] and the infinities have no
    counterpart.  Objects keep their properties in insertion order. *)
Inductive value : Type :=
| VUndefined
| VNull
| VBool (b : bool)
| VNum (n : Z)
| VStr (s : string)
| VArr (items : list value)
| VObj (fields : list (string * value)).

(** Ordered property lists, as [Object.entries] enumerates them. *)
Definition obj := list (string * value).

Fixpoint assoc {A} (k : string) (l : list (string * A)) : option A :=
  match l with
  | [] => None
  | (k', v) :: l' => if String.eqb k' k then Some v else assoc k l'
  end.

(** [o[k] = v]: overwrite in place, or append a new property. *)
Fixpoint set_prop (k : string) (v : value) (o : obj) : obj :=
  match o with
  | [] => [(k, v)]
  | (k', v') :: o' =>
      if String.eqb k' k then (k, v) :: o' else (k', v') :: set_prop k v o'
  end.

(** ToBoolean. *)
Definition truthy (v : value) : bool :=
  match v with
  | VUndefined | VNull => false
  | VBool b => b
  | VNum n => negb (n =? 0)
  | VStr s => negb (String.eqb s "")
  | VArr _ | VObj _ => true
  end.

(** [Number.MAX_SAFE_INTEGER]: up to it every integer is a number of its
    own and [String] writes all its digits. *)
Definition MAX_SAFE_INTEGER : Z := 9007199254740991.

(** The numbers a value is written with are safe integers.  (The numbers
    inside an object do not count: an object is written [[object Object]].) *)
Fixpoint safe (v : value) : bool :=
  match v with
  | VNum n => Z.abs n <=? MAX_SAFE_INTEGER
  | VArr items => forallb safe items
  | _ => true
  end.

(** [String(v)], for a value that is [safe]. *)
Fixpoint to_string (v : value) : string :=
  match v with
  | VUndefined => "undefined"
  | VNull => "null"
  | VBool true => "true"
  | VBool false => "false"
  | VNum n => pretty n
  | VStr s => s
  | VArr items =>
      String.concat ","
        (List.map (fun x => match x with
                            | VUndefined | VNull => ""
                            | _ => to_string x
                            end) items)
  | VObj _ => "[object Object]"
  end.

(** [v !== undefined && v !== null && v !== ''] *)
Definition is_undefined (v : value) : bool :=
  match v with VUndefined => true | _ => false end.
Definition is_null (v : value) : bool :=
  match v with VNull => true | _ => false end.
Definition is_empty_string (v : value) : bool :=
  match v with VStr s => String.eqb s "" | _ => false end.

(** An optional string field of a typed parameter object. *)
Definition of_opt (o : option string) : value :=
  match o with Some s => VStr s | None => VUndefined end.

(** [a || b] *)
Definition or_else (a b : value) : value := if truthy a then a else b.

(** [v === s] for a string literal [s]. *)
Definition strict_eq_str (v : value) (s : string) : bool :=
  match v with VStr s' => String.eqb s' s | _ => false end.

(** The document [JSON.stringify] writes for an object or array: properties
    holding [undefined] are dropped, array holes become [null]. *)
Fixpoint stringify (v : value) : value :=
  match v with
  | VArr items =>
      VArr (List.map (fun x => match x with
                               | VUndefined => VNull
                               | _ => stringify x
                               end) items)
  | VObj fields =>
      VObj ((fix go (fs : list (string * value)) : list (string * value) :=
               match fs with
               | [] => []
               | (k, x) :: fs' =>
                   match x with
                   | VUndefined => go fs'
                   | _ => (k, stringify x) :: go fs'
                   end
               end) fields)
  | _ => v
  end.

End JS.

Import JS.

(* ===================================================================== *)
(** ** HTTP exchange and the effect monad *)
(* ===================================================================== *)
Module Http.

Inductive method := GET | POST.

(** A URL is kept structured: the text before the query and the decoded
    query pairs in order ([URLSearchParams]). *)
Record Url := mkUrl { path : string; searchParams : list (string * string) }.

Record Request := mkRequest {
  req_method : method;
  req_url : Url;
  req_headers : list (string * string);
  req_body : option value            (* the document [JSON.stringify] wrote *)
}.

Record Response := mkResponse {
  status : Z;
  statusText : string;
  body : option value                (* [None]: the body is not JSON *)
}.

(** [response.ok] *)
Definition ok (r : Response) : bool := (200 <=? status r) && (status r <=? 299).

Inductive fetch_outcome := NetworkFailure | Responded (r : Response).

(** What a rejected promise carries.  All three are [Error] instances. *)
Inductive exn :=
| Error (message : string)
| TypeError
| SyntaxError.

Definition instanceof_Error (e : exn) : bool :=
  match e with Error _ | TypeError | SyntaxError => true end.

Inductive result (A : Type) := Ok (a : A) | Throw (e : exn).
Arguments Ok {A} a.
Arguments Throw {A} e.

End Http.

Import Http.

(* ===================================================================== *)
(** ** types.ts *)
(* ===================================================================== *)
Module Types.

(** The fields are filled from parsed server documents, so each holds
    whatever value the document had under that name. *)
Record User := mkUser { id : value; username : value; api_key : value }.

Record Project := mkProject {
  p_id : value;
  p_name : value;
  p_description : value;
  p_api_key : value;
  p_owner_id : value;
  p_created_at : value
}.

Record CreateProjectRequest := mkCreateProjectRequest {
  cp_name : string;
  cp_description : option string;
  cp_oauth_token : string
}.

Record StoredCredentials := mkStoredCredentials {
  user : User;
  oauth_token : value;
  projects : value                 (* an array of project objects *)
}.

Record LogFilters := mkLogFilters {
  query : string;
  level : string;
  service : string;
  startDate : string;
  endDate : string
}.

Record PaginationState := mkPagination { page : Z; size : Z; total : Z }.

Definition user_value (u : User) : value :=
  VObj [("id", id u); ("username", username u); ("api_key", api_key u)].

Definition project_value (p : Project) : value :=
  VObj [("id", p_id p); ("name", p_name p); ("description", p_description p);
        ("api_key", p_api_key p); ("owner_id", p_owner_id p);
        ("created_at", p_created_at p)].

Definition credentials_value (c : StoredCredentials) : value :=
  VObj [("user", user_value (user c)); ("oauth_token", oauth_token c);
        ("projects", projects c)].

End Types.

(** The world the client runs in: the remote side (its answer may depend on
    the requests seen so far), the log of requests handed to [fetch], and
    the browser's [localStorage] (each entry is the JSON document its text
    denotes) and the [credentials] field of the [authService] singleton. *)
Record World := mkWorld {
  server : list Request -> Request -> fetch_outcome;
  sent : list Request;
  localStorage : gmap string value;
  credentials : option Types.StoredCredentials   (* [authService.credentials] *)
}.

Definition M (A : Type) : Type := World -> result A * World.

Definition ret {A} (a : A) : M A := fun w => (Ok a, w).
Definition throw {A} (e : exn) : M A := fun w => (Throw e, w).
Definition bind {A B} (m : M A) (k : A -> M B) : M B :=
  fun w => match m w with
           | (Ok a, w') => k a w'
           | (Throw e, w') => (Throw e, w')
           end.
(** [try { m } catch (e) { h e }] *)
Definition try_catch {A} (m : M A) (h : exn -> M A) : M A :=
  fun w => match m w with
           | (Ok a, w') => (Ok a, w')
           | (Throw e, w') => h e w'
           end.

Notation "'do' x <- m ; k" := (bind m (fun x => k))
  (at level 10, x name, m at level 100, k at level 200).

(** [await fetch(...)]: the request is logged; a network failure rejects
    with a [TypeError]. *)
Definition fetch (r : Request) : M Response :=
  fun w =>
    let w' := mkWorld (server w) (sent w ++ [r]) (localStorage w) (credentials w) in
    match server w (sent w) r with
    | NetworkFailure => (Throw TypeError, w')
    | Responded resp => (Ok resp, w')
    end.

(** [await response.json()] *)
Definition json (r : Response) : M value :=
  match body r with
  | Some v => ret v
  | None => throw SyntaxError
  end.

(** [o.k] on a value: reading a property of [null]/[undefined] throws. *)
Definition read_prop (o : value) (k : string) : result value :=
  match o with
  | VObj fields => Ok (default VUndefined (assoc k fields))
  | VUndefined | VNull => Throw TypeError
  | _ => Ok VUndefined
  end.

Definition get_prop (o : value) (k : string) : M value :=
  fun w => (read_prop o k, w).

(** The block every service method runs on a response that is not [ok]:
<<
  const errorData = await response.json().catch(() => ({}));
  throw new Error(errorData.detail || `HTTP ${status}: ${statusText}`);
>> *)
Definition http_text (r : Response) : string :=
  "HTTP " +:+ pretty (status r) +:+ ": " +:+ statusText r.

Definition throw_http_error {A} (response : Response) : M A :=
  do errorData <- try_catch (json response) (fun _ => ret (VObj []));
  do detail <- get_prop errorData "detail";
  throw (Error (to_string (or_else detail (VStr (http_text response))))).

(* ===================================================================== *)
(** ** services/apiService.ts *)
(* ===================================================================== *)
Module ApiService.

Record t := mk { baseUrl : string }.

(** [FetchLogsParams & { project_id?: string }] *)
Record FetchLogsParams := mkParams {
  page : Z;
  size : Z;
  search : option string;
  level : option string;
  service : option string;
  startDate : option string;
  endDate : option string;
  backend : option string;
  project_id : option string
}.

(** The body of the [forEach] in [request]: one step on one entry. *)
Definition keep (v : value) : bool :=
  negb (is_undefined v) && negb (is_null v) && negb (is_empty_string v).

Definition append_entry (q : list (string * string)) (kv : string * value)
  : list (string * string) :=
  if keep kv.2 then q ++ [(kv.1, to_string kv.2)] else q.

(** [Object.entries(params).forEach(...)] on a fresh [URL]. *)
Definition build_query (params : obj) : list (string * string) :=
  fold_left append_entry params [].

Definition request_url (self : t) (endpoint : string) (params : option obj) : Url :=
  mkUrl (baseUrl self +:+ endpoint)
        (match params with Some p => build_query p | None => [] end).

Section WithURL.

(** The verdict of the browser's URL parser: whether [new URL(text)]
    accepts the text.  It throws a [TypeError] for a text that is not an
    absolute URL, such as a base of ['/api']. *)
Variable URL_valid : string -> bool.

(** [private async request<T>(endpoint, params?)].  The URL is built before
    the [try]; when the constructor throws, nothing is fetched. *)
Definition request (self : t) (endpoint : string) (params : option obj) : M value :=
  if negb (URL_valid (baseUrl self +:+ endpoint)) then throw TypeError
  else
    let url := request_url self endpoint params in
    try_catch
      (do response <- fetch (mkRequest GET url [] None);
       if negb (ok response) then throw_http_error response
       else json response)
      (fun error =>
         if instanceof_Error error then throw error
         else throw (Error "Network request failed")).

(** The [apiParams] object [fetchLogs] builds. *)
Definition apiParams (params : FetchLogsParams) : obj :=
  let a := [("page", VNum (page params)); ("size", VNum (size params))] in
  let a := if truthy (of_opt (search params))
           then set_prop "search" (of_opt (search params)) a else a in
  let a := if truthy (of_opt (level params))
              && negb (strict_eq_str (of_opt (level params)) "ALL")
           then set_prop "level" (of_opt (level params)) a else a in
  let a := if truthy (of_opt (service params))
              && negb (strict_eq_str (of_opt (service params)) "ALL")
           then set_prop "service" (of_opt (service params)) a else a in
  let a := if truthy (of_opt (startDate params))
           then set_prop "from_ts" (of_opt (startDate params)) a else a in
  let a := if truthy (of_opt (endDate params))
           then set_prop "to_ts" (of_opt (endDate params)) a else a in
  let a := if truthy (of_opt (backend params))
           then set_prop "backend" (of_opt (backend params)) a else a in
  let a := if truthy (of_opt (project_id params))
           then set_prop "project_id" (of_opt (project_id params)) a else a in
  a.

Definition fetchLogs (self : t) (params : FetchLogsParams) : M value :=
  request self "/logs" (Some (apiParams params)).

Definition getServices (self : t) (backend : option string) : M value :=
  let params : obj := [] in
  let params := if truthy (of_opt backend)
                   && negb (strict_eq_str (of_opt backend) "s3")
                then set_prop "backend" (of_opt backend) params else params in
  if strict_eq_str (of_opt backend) "s3" then
    ret (VObj [("services", VArr [])])
  else
    request self "/logs/services" (Some params).

End WithURL.

(** The argument of [ingestLog] and the element type of [ingestLogsBatch]. *)
Record LogData := mkLogData {
  message : string;
  ld_level : string;
  ld_service : string;
  timestamp : option string;
  metadata : option obj
}.

Definition logData_value (d : LogData) : value :=
  VObj [("message", VStr (message d));
        ("level", VStr (ld_level d));
        ("service", VStr (ld_service d));
        ("timestamp", of_opt (timestamp d));
        ("metadata", match metadata d with
                     | Some m => VObj m
                     | None => VUndefined
                     end)].

Definition json_headers : list (string * string) :=
  [("Content-Type", "application/json")].

Definition ingestLog (self : t) (logData : LogData) : M value :=
  do response <- fetch (mkRequest POST (mkUrl (baseUrl self +:+ "/ingest") [])
                          json_headers
                          (Some (stringify (logData_value logData))));
  if negb (ok response) then throw_http_error response
  else json response.

Definition ingestLogsBatch (self : t) (logs : list LogData) : M value :=
  do response <- fetch (mkRequest POST (mkUrl (baseUrl self +:+ "/ingest/batch") [])
                          json_headers
                          (Some (stringify (VArr (List.map logData_value logs)))));
  if negb (ok response) then throw_http_error response
  else json response.

End ApiService.

(* ===================================================================== *)
(** ** services/logService.ts *)
(* ===================================================================== *)
Module LogService.

(** [catch (error) { console.error(...); throw error; }] *)
Definition logged {A} (m : M A) : M A := try_catch m (fun error => throw error).

Section WithURL.
Variable URL_valid : string -> bool.

(** Returns [{ data: response.logs, total: response.total }]. *)
Definition fetchLogs (apiService : ApiService.t) (params : ApiService.FetchLogsParams)
  : M (value * value) :=
  logged (do response <- ApiService.fetchLogs URL_valid apiService params;
          do logs <- get_prop response "logs";
          do total <- get_prop response "total";
          ret (logs, total)).

Definition getServices (apiService : ApiService.t) (backend : option string) : M value :=
  logged (do response <- ApiService.getServices URL_valid apiService backend;
          get_prop response "services").

End WithURL.

Definition ingestLog (apiService : ApiService.t) (logData : ApiService.LogData) : M value :=
  logged (ApiService.ingestLog apiService logData).

Definition ingestLogsBatch (apiService : ApiService.t) (logs : list ApiService.LogData)
  : M value :=
  logged (ApiService.ingestLogsBatch apiService logs).

End LogService.

(* ===================================================================== *)
(** ** services/authService.ts *)
(* ===================================================================== *)
Module AuthService.
Import Types.

Record t := mk { baseUrl : string }.

Definition STORAGE_KEY : string := "logstream_credentials".

Definition set_state (ls : gmap string value) (c : option StoredCredentials) : M unit :=
  fun w => (Ok tt, mkWorld (server w) (sent w) ls c).

Definition get_state : M (option StoredCredentials) :=
  fun w => (Ok (credentials w), w).

Definition get_storage : M (gmap string value) :=
  fun w => (Ok (localStorage w), w).

(** [this.credentials = credentials;
     localStorage.setItem(STORAGE_KEY, JSON.stringify(credentials))] *)
Definition saveCredentials (c : StoredCredentials) : M unit :=
  do ls <- get_storage;
  set_state (<[STORAGE_KEY := stringify (credentials_value c)]> ls) (Some c).

Definition clearCredentials : M unit :=
  do ls <- get_storage;
  set_state (delete STORAGE_KEY ls) None.

Definition getCredentials : M (option StoredCredentials) := get_state.

(** [this.credentials?.oauth_token] *)
Definition optional_oauth_token (c : option StoredCredentials) : value :=
  match c with Some c => oauth_token c | None => VUndefined end.

Definition getOAuthToken : M value :=
  do c <- get_state;
  ret (or_else (optional_oauth_token c) VNull).

Definition isAuthenticated : M bool :=
  do c <- get_state;
  ret (match c with Some _ => true | None => false end).

Definition registerUser (self : t) : M User :=
  do response <- fetch (mkRequest POST (mkUrl (baseUrl self +:+ "/join") [])
                          ApiService.json_headers None);
  if negb (ok response) then throw_http_error response
  else
    do userData <- json response;
    do uid <- get_prop userData "id";
    do uname <- get_prop userData "username";
    do key <- get_prop userData "api_key";
    let user := mkUser uid uname key in
    do token <- get_prop userData "api_key";
    do _ <- saveCredentials (mkStoredCredentials user token (VArr []));
    ret user.

Definition createProjectRequest_value (r : CreateProjectRequest) : value :=
  VObj [("name", VStr (cp_name r));
        ("description", of_opt (cp_description r));
        ("oauth_token", VStr (cp_oauth_token r))].

(** [this.credentials.projects.push(project)] *)
Definition push (arr : value) (x : value) : M value :=
  match arr with
  | VArr items => ret (VArr (items ++ [x]))
  | _ => throw TypeError
  end.

Definition createProject (self : t) (projectData : CreateProjectRequest) : M Project :=
  do response <- fetch (mkRequest POST (mkUrl (baseUrl self +:+ "/projects") [])
                          ApiService.json_headers
                          (Some (stringify (createProjectRequest_value projectData))));
  if negb (ok response) then throw_http_error response
  else
    do r <- json response;
    do pid <- get_prop r "id";
    do pname <- get_prop r "name";
    do pdesc <- get_prop r "description";
    do pkey <- get_prop r "api_key";
    do powner <- get_prop r "owner_id";
    do pcreated <- get_prop r "created_at";
    let project := mkProject pid pname pdesc pkey powner pcreated in
    do c <- get_state;
    do _ <- match c with
            | Some c =>
                do ps <- push (projects c) (project_value project);
                saveCredentials (mkStoredCredentials (user c) (oauth_token c) ps)
            | None => ret tt
            end;
    ret project.

Definition getProjects (self : t) (oauthToken : string) : M value :=
  do response <- fetch (mkRequest GET
                          (mkUrl (baseUrl self +:+ "/projects")
                                 [("oauth_token", oauthToken)])
                          [] None);
  if negb (ok response) then throw_http_error response
  else
    do data <- json response;
    do ps <- get_prop data "projects";
    do c <- get_state;
    do _ <- match c with
            | Some c => saveCredentials (mkStoredCredentials (user c) (oauth_token c) ps)
            | None => ret tt
            end;
    ret ps.

Definition getProjectApiKey (self : t) (projectId : string) : M value :=
  do c <- get_state;
  if negb (truthy (optional_oauth_token c)) then throw (Error "Not authenticated")
  else
    do response <- fetch (mkRequest GET
                            (mkUrl (baseUrl self +:+ "/projects/" +:+ projectId
                                      +:+ "/api-key")
                                   [("oauth_token", to_string (optional_oauth_token c))])
                            [] None);
    if negb (ok response) then throw_http_error response
    else
      do data <- json response;
      get_prop data "api_key".

End AuthService.

(* ===================================================================== *)
(** ** Numbers *)
(* ===================================================================== *)

(** [Math.ceil(a / b)] on integers with [b <> 0]: the ceiling of the exact
    quotient.  (For integers below 2^53 the double the division produces
    has the same ceiling as the exact quotient.) *)
Definition Math_ceil_div (a b : Z) : Z := - ((- a) / b).

(* ===================================================================== *)
(** ** components/LogsPage.tsx: filter and pagination state *)
(* ===================================================================== *)
Module LogsPage.
Import Types.

Record State := mkState {
  filters : LogFilters;
  pagination : PaginationState;
  storageBackend : string
}.

(** The [useState] initial values. *)
Definition initial : State :=
  mkState (mkLogFilters "" "ALL" "ALL" "" "")
          (mkPagination 1 50 0)
          "elasticsearch".

Definition with_page (p : PaginationState) (n : Z) : PaginationState :=
  mkPagination n (size p) (total p).
Definition with_total (p : PaginationState) (n : Z) : PaginationState :=
  mkPagination (page p) (size p) n.

Definition handleFilterChange (newFilters : LogFilters) (st : State) : State :=
  mkState newFilters (with_page (pagination st) 1) (storageBackend st).

Definition handleQueryChange (q : string) (st : State) : State :=
  let f := filters st in
  mkState (mkLogFilters q (level f) (service f) (startDate f) (endDate f))
          (with_page (pagination st) 1) (storageBackend st).

Definition handlePageChange (newPage : Z) (st : State) : State :=
  mkState (filters st) (with_page (pagination st) newPage) (storageBackend st).

(** [const totalPages = Math.ceil(pagination.total / pagination.size)] *)
Definition totalPages (st : State) : Z :=
  Math_ceil_div (total (pagination st)) (size (pagination st)).

(** The two navigation buttons: [disabled] and [onClick]. *)
Definition previous_disabled (st : State) : bool := page (pagination st) =? 1.
Definition next_disabled (st : State) : bool := totalPages st <=? page (pagination st).

Definition previous_onClick (st : State) : State :=
  handlePageChange (Z.max 1 (page (pagination st) - 1)) st.
Definition next_onClick (st : State) : State :=
  handlePageChange (Z.min (totalPages st) (page (pagination st) + 1)) st.

(** [setPagination(prev => ({ ...prev, total }))] at the end of [loadData]. *)
Definition loaded (newTotal : Z) (st : State) : State :=
  mkState (filters st) (with_total (pagination st) newTotal) (storageBackend st).

Definition setStorageBackend (b : string) (st : State) : State :=
  mkState (filters st) (pagination st) b.

(** What can happen to the page: user input, and a finished load that
    reported an integer total.  A click on a disabled button does nothing.
    A click is one event; the load that a change of page, filters or backend
    sets off is the [Loaded] event that follows it. *)
Inductive event :=
| FilterChange (newFilters : LogFilters)
| QueryChange (q : string)
| ClickPrevious
| ClickNext
| SelectBackend (b : string)
| Loaded (newTotal : Z).

Definition step (st : State) (e : event) : State :=
  match e with
  | FilterChange f => handleFilterChange f st
  | QueryChange q => handleQueryChange q st
  | ClickPrevious => if previous_disabled st then st else previous_onClick st
  | ClickNext => if next_disabled st then st else next_onClick st
  | SelectBackend b => setStorageBackend b st
  | Loaded n => loaded n st
  end.

Definition run (st : State) (es : list event) : State := fold_left step es st.

(** What holds of the pagination state throughout. *)
Definition page_ok (st : State) : Prop :=
  1 <= page (pagination st) /\ size (pagination st) = 50.

(** The parameters [loadData] passes to [fetchLogs]. *)
Definition loadData_params (st : State) (project_id : option string)
  : ApiService.FetchLogsParams :=
  ApiService.mkParams (page (pagination st)) (size (pagination st))
    (Some (query (filters st))) (Some (level (filters st)))
    (Some (service (filters st))) (Some (startDate (filters st)))
    (Some (endDate (filters st))) (Some (storageBackend st)) project_id.

End LogsPage.

(* ===================================================================== *)
(** ** The server side: registry, ingestion gateway, query service *)
(* ===================================================================== *)
Module Backend.

(** Modelled from the spec: the enumerated levels of a LogEntry (section 3);
    the server code is not among the client sources. *)
Inductive Level := INFO | WARNING | ERROR | CRITICAL | DEBUG.

(** Modelled from the spec: the project identifier of section 3. *)
Definition ProjectID := string.

(** Modelled from the spec: the server's LogEntry (section 3, data model);
    the server code is not among the client sources.  The identifier is the
    one assigned at ingestion, the project is the one resolved from the
    credential. *)
Record LogEntry := mkLogEntry {
  identifier : nat;
  timestamp : Z;
  level : Level;
  service : string;
  message : string;
  metadata : obj;
  project : ProjectID
}.

(** Modelled from the spec: the error taxonomy of section 7. *)
Inductive error := Unauthorized | InvalidArgument | ServiceUnavailable.

(** Modelled from the spec: the two ways [authenticateIngestion] fails
    (section 4.1). *)
Inductive AuthError := Invalid | Revoked.

(** Modelled from the spec: a registry record keeps the digest of a
    project's key, not the key (section 3, Project). *)
Record KeyRecord := mkKeyRecord {
  key_project : ProjectID;
  key_digest : string;
  key_revoked : bool
}.

(** Modelled from the spec: the single-log and batch input shape
    [{message, level?, service, timestamp?, metadata?}] (section 6). *)
Record RawEntry := mkRawEntry {
  raw_message : string;
  raw_level : option string;
  raw_service : string;
  raw_timestamp : option string;
  raw_metadata : obj
}.

(** Modelled from the spec: the three storage backends of section 4.5 as a
    closed variant (section 9). *)
Inductive BackendTag := Relational | DocumentStore | ObjectStore.

(** Modelled from the spec: a queued message, the accepted entry with the
    backend selector set at ingestion (sections 4.2 and 4.4). *)
Record Message := mkMessage { entry : LogEntry; selector : BackendTag }.

(** Modelled from the spec: the delivery queue as the gateway sees it
    (section 4.3): it is reachable or not, and keeps what was published in
    order. *)
Record Queue := mkQueue { available : bool; messages : list Message }.

(** Modelled from the spec: what the gateway of section 4.2 works with, the
    registry, the queue, the next identifier to assign, the server clock and
    the configured default backend. *)
Record Gateway := mkGateway {
  registry : list KeyRecord;
  queue : Queue;
  next_id : nat;
  clock : Z;
  default_backend : BackendTag
}.

(** Modelled from the spec: the response [{status, message, queued,
    failed}] of [POST /ingest/batch] (section 6). *)
Record BatchResponse := mkBatchResponse {
  br_status : string;
  br_message : string;
  queued : nat;
  failed : nat
}.

(** Modelled from the spec: the filter fields of [query] (section 4.5). *)
Record Filter := mkFilter {
  f_search : option string;
  f_level : option Level;            (* [None]: ALL *)
  f_service : option string;         (* [None]: ALL *)
  f_from : option Z;
  f_to : option Z;
  f_page : Z;
  f_size : Z
}.

(** Modelled from the spec: the normalized response [{entries, total,
    page, size, totalPages}] of the query service (section 4.6). *)
Record Page := mkPage {
  entries : list LogEntry;
  total : nat;
  pg_page : Z;
  pg_size : Z;
  totalPages : Z
}.

(** Modelled from the spec: a level is valid when it is in the enumerated
    set (section 4.2). *)
Definition parse_level (s : string) : option Level :=
  if String.eqb s "INFO" then Some INFO
  else if String.eqb s "WARNING" then Some WARNING
  else if String.eqb s "ERROR" then Some ERROR
  else if String.eqb s "CRITICAL" then Some CRITICAL
  else if String.eqb s "DEBUG" then Some DEBUG
  else None.

(** Modelled from the spec: exact match of a level (section 4.5). *)
Definition level_eqb (a b : Level) : bool :=
  match a, b with
  | INFO, INFO | WARNING, WARNING | ERROR, ERROR
  | CRITICAL, CRITICAL | DEBUG, DEBUG => true
  | _, _ => false
  end.

(** Modelled from the spec: substring search (section 4.5), [needle]
    occurs in [hay]. *)
Fixpoint contains (needle hay : string) : bool :=
  String.prefix needle hay ||
  match hay with
  | EmptyString => false
  | String _ hay' => contains needle hay'
  end.

Section Spec.

(** Modelled from the spec: the one-way digest of a key and the ISO-8601
    reader are left to the implementer (sections 3 and 4.2); so are the
    texts of the [status] and [message] fields of a batch response. *)
Variable digest : string -> string.
Variable parse_iso8601 : string -> option Z.
Variable batch_status : string.
Variable batch_message : nat -> nat -> string.

(** Modelled from the spec: [authenticateIngestion(apiKey)] of section 4.1,
    a lookup by digest. *)
Definition authenticateIngestion (reg : list KeyRecord) (apiKey : string)
  : ProjectID + AuthError :=
  match List.find (fun r => String.eqb (key_digest r) (digest apiKey)) reg with
  | None => inr Invalid
  | Some r => if key_revoked r then inr Revoked else inl (key_project r)
  end.

(** Modelled from the spec: per-entry validation of section 4.2.  A missing
    level is INFO, a missing timestamp is the server clock; a timestamp that
    is given has to parse. *)
Definition validate (now : Z) (raw : RawEntry) : option (Level * Z) :=
  if String.eqb (raw_message raw) "" then None
  else if String.eqb (raw_service raw) "" then None
  else
    match match raw_level raw with
          | None => Some INFO
          | Some l => parse_level l
          end with
    | None => None
    | Some lv =>
        match match raw_timestamp raw with
              | None => Some now
              | Some t => parse_iso8601 t
              end with
        | None => None
        | Some ts => Some (lv, ts)
        end
    end.

(** Modelled from the spec: an entry that passes validation. *)
Definition valid_entry (now : Z) (raw : RawEntry) : bool :=
  match validate now raw with Some _ => true | None => false end.

(** Modelled from the spec: an accepted entry is tagged with the resolved
    project and the assigned identifier (section 4.2). *)
Definition accept (pid : ProjectID) (ident : nat) (raw : RawEntry) (v : Level * Z)
  : LogEntry :=
  mkLogEntry ident v.2 v.1 (raw_service raw) (raw_message raw) (raw_metadata raw) pid.

(** Modelled from the spec: validation of a batch, per entry and
    independent (section 4.2): the accepted entries in order, the number of
    rejected ones, the next free identifier. *)
Fixpoint validate_batch (pid : ProjectID) (now : Z) (ident : nat) (raws : list RawEntry)
  : list LogEntry * nat * nat :=
  match raws with
  | [] => ([], 0%nat, ident)
  | raw :: raws' =>
      match validate now raw with
      | Some v =>
          let '(acc, bad, ident') := validate_batch pid now (S ident) raws' in
          (accept pid ident raw v :: acc, bad, ident')
      | None =>
          let '(acc, bad, ident') := validate_batch pid now ident raws' in
          (acc, S bad, ident')
      end
  end.

(** Modelled from the spec: publishing onto the delivery queue, which fails
    when the queue is unavailable (section 4.2). *)
Definition publish (q : Queue) (m : Message) : option Queue :=
  if available q then Some (mkQueue true (messages q ++ [m])) else None.

(** Modelled from the spec: the accepted entries are published in order;
    one failure fails the whole batch (section 4.2). *)
Fixpoint publish_all (q : Queue) (ms : list Message) : option Queue :=
  match ms with
  | [] => Some q
  | m :: ms' =>
      match publish q m with
      | Some q' => publish_all q' ms'
      | None => None
      end
  end.

(** Modelled from the spec: [ingestBatch(rawEntries, credential)] of section
    4.2: authenticate before any parsing, validate each entry on its own,
    publish the accepted ones, report both counts. *)
Definition ingestBatch (g : Gateway) (raws : list RawEntry) (credential : string)
           (backend : option BackendTag) : (error + BatchResponse) * Gateway :=
  match authenticateIngestion (registry g) credential with
  | inr _ => (inl Unauthorized, g)
  | inl pid =>
      let '(acc, bad, ident') := validate_batch pid (clock g) (next_id g) raws in
      let sel := default (default_backend g) backend in
      match publish_all (queue g) (List.map (fun e => mkMessage e sel) acc) with
      | None => (inl ServiceUnavailable, g)
      | Some q' =>
          (inr (mkBatchResponse batch_status
                  (batch_message (length acc) bad) (length acc) bad),
           mkGateway (registry g) q' ident' (clock g) (default_backend g))
      end
  end.

End Spec.

(** Modelled from the spec: the filter of section 4.5: free-text search on
    the message or a metadata value, exact level and service unless ALL,
    inclusive time range. *)
Definition search_hit (needle : string) (e : LogEntry) : bool :=
  contains needle (message e)
  || existsb (fun kv => contains needle (to_string kv.2)) (metadata e).

(** Modelled from the spec: an entry passes the filter when it passes each
    of its fields (section 4.5). *)
Definition matches (f : Filter) (e : LogEntry) : bool :=
  match f_search f with Some s => search_hit s e | None => true end
  && match f_level f with Some l => level_eqb l (level e) | None => true end
  && match f_service f with Some s => String.eqb s (service e) | None => true end
  && match f_from f with Some t => t <=? timestamp e | None => true end
  && match f_to f with Some t => timestamp e <=? t | None => true end.

(** Modelled from the spec: the order of a result (section 4.5),
    descending by timestamp, ties by assigned identifier. *)
Definition before (a b : LogEntry) : bool :=
  (timestamp b <? timestamp a)
  || ((timestamp a =? timestamp b) && (identifier a <=? identifier b)%nat).

(** Modelled from the spec: ordering a result, by insertion. *)
Fixpoint insert_entry (e : LogEntry) (l : list LogEntry) : list LogEntry :=
  match l with
  | [] => [e]
  | x :: l' => if before e x then e :: x :: l' else x :: insert_entry e l'
  end.

(** Modelled from the spec: the ordered result (section 4.5). *)
Fixpoint order_entries (l : list LogEntry) : list LogEntry :=
  match l with
  | [] => []
  | e :: l' => insert_entry e (order_entries l')
  end.

(** Modelled from the spec: the entry belongs to the project (sections 3
    and 4.5). *)
Definition in_project (pid : ProjectID) (e : LogEntry) : bool :=
  String.eqb (project e) pid.

(** Modelled from the spec: all entries of the project that pass the
    filter, in result order (section 4.5). *)
Definition hits (pid : ProjectID) (f : Filter) (store : list LogEntry) : list LogEntry :=
  order_entries (List.filter (fun e => in_project pid e && matches f e) store).

(** Modelled from the spec: [query(ProjectID, filter)] of sections 4.5 and
    4.6 over the entries a backend holds: scoped to the project, filtered,
    ordered, cut to the page, with [totalPages = ceil(total / size)];
    [size <= 0] is an invalid argument, and so is a page before the
    first. *)
Definition query (pid : ProjectID) (f : Filter) (store : list LogEntry)
  : error + Page :=
  if (f_size f <=? 0) || (f_page f <? 1) then inl InvalidArgument
  else
    let all := hits pid f store in
    inr (mkPage (take (Z.to_nat (f_size f))
                      (drop (Z.to_nat ((f_page f - 1) * f_size f)) all))
                (length all) (f_page f) (f_size f)
                (Math_ceil_div (Z.of_nat (length all)) (f_size f))).

End Backend.

(* ===================================================================== *)
(** ** The request contract, in the words of the interface description *)
(* ===================================================================== *)
Module Contract.

(** A filter value that is absent or empty. *)
Definition nonempty (o : option string) : option string :=
  match o with
  | Some s => if String.eqb s "" then None else Some s
  | None => None
  end.

(** A filter value that is absent, empty or the sentinel. *)
Definition unless (sentinel : string) (o : option string) : option string :=
  match nonempty o with
  | Some s => if String.eqb s sentinel then None else Some s
  | None => None
  end.

Definition opt_entry (k : string) (o : option string) : obj :=
  match o with Some s => [(k, VStr s)] | None => [] end.

Definition str_entry (k : string) (o : option string) : list (string * string) :=
  match o with Some s => [(k, s)] | None => [] end.


(** The query of [GET /logs] for a filter state: page and size always, every
    other parameter when its filter is set, level and service unless ALL,
    startDate as from_ts and endDate as to_ts. *)
Definition logs_query (p : ApiService.FetchLogsParams) : list (string * string) :=
  [("page", pretty (ApiService.page p)); ("size", pretty (ApiService.size p))]
  ++ str_entry "search" (nonempty (ApiService.search p))
  ++ str_entry "level" (unless "ALL" (ApiService.level p))
  ++ str_entry "service" (unless "ALL" (ApiService.service p))
  ++ str_entry "from_ts" (nonempty (ApiService.startDate p))
  ++ str_entry "to_ts" (nonempty (ApiService.endDate p))
  ++ str_entry "backend" (nonempty (ApiService.backend p))
  ++ str_entry "project_id" (nonempty (ApiService.project_id p)).

(** The same filter state with empty search and date fields made absent. *)
Definition without_blanks (p : ApiService.FetchLogsParams) : ApiService.FetchLogsParams :=
  ApiService.mkParams (ApiService.page p) (ApiService.size p)
    (nonempty (ApiService.search p)) (ApiService.level p) (ApiService.service p)
    (nonempty (ApiService.startDate p)) (nonempty (ApiService.endDate p))
    (ApiService.backend p) (ApiService.project_id p).

(** What a caller gets from a method that returns the parsed body of the
    response to its one request. *)
Definition body_or_error (o : fetch_outcome) : result value :=
  match o with
  | NetworkFailure => Throw TypeError
  | Responded r =>
      if ok r then
        match body r with Some b => Ok b | None => Throw SyntaxError end
      else
        match body r with
        | Some (VObj fields) =>
            Throw (Error (to_string (or_else (default VUndefined (assoc "detail" fields))
                                             (VStr (http_text r)))))
        | Some VNull | Some VUndefined => Throw TypeError
        | _ => Throw (Error (http_text r))
        end
  end.

(** A field of a stored JSON document ([undefined] when it is not there). *)
Definition doc_field (d : value) (k : string) : value :=
  match d with
  | VObj fields => default VUndefined (assoc k fields)
  | _ => VUndefined
  end.

(** What a caller gets from a method that returns one field of the parsed
    body. *)
Definition field_or_error (k : string) (o : fetch_outcome) : result value :=
  match body_or_error o with
  | Ok data => read_prop data k
  | Throw e => Throw e
  end.

End Contract.

(* ===================================================================== *)
(** ** A concrete run: one user, one project *)
(* ===================================================================== *)
Module Scenario.

Definition base : string := "http://localhost:8000".
Definition api : ApiService.t := ApiService.mk base.
Definition auth : AuthService.t := AuthService.mk base.

Definition demo_key : string := "k1:p1".

(** A server that registers a user, creates project [p1], hands out its key
    on the api-key path and wants that key in [X-API-Key] on [/ingest]. *)
Definition demo_server (history : list Request) (r : Request) : fetch_outcome :=
  let at_path (s : string) := String.eqb (path (req_url r)) (base +:+ s) in
  match req_method r with
  | POST =>
      if at_path "/join" then
        Responded (mkResponse 200 "OK"
          (Some (VObj [("id", VStr "u1"); ("username", VStr "ada");
                       ("api_key", VStr "tok-u1")])))
      else if at_path "/projects" then
        Responded (mkResponse 200 "OK"
          (Some (VObj [("id", VStr "p1"); ("name", VStr "web");
                       ("description", VNull); ("api_key", VStr demo_key);
                       ("owner_id", VStr "u1");
                       ("created_at", VStr "2025-01-01T00:00:00Z")])))
      else if at_path "/ingest" then
        match assoc "X-API-Key" (req_headers r) with
        | Some k =>
            if String.eqb k demo_key then
              Responded (mkResponse 200 "OK"
                (Some (VObj [("status", VStr "queued"); ("message", VStr "ok");
                             ("timestamp", VStr "2025-01-01T00:00:00Z")])))
            else Responded (mkResponse 401 "Unauthorized"
                   (Some (VObj [("detail", VStr "Invalid API key")])))
        | None => Responded (mkResponse 401 "Unauthorized"
                    (Some (VObj [("detail", VStr "Missing API key")])))
        end
      else Responded (mkResponse 404 "Not Found" None)
  | GET =>
      if at_path "/projects/p1/api-key" then
        Responded (mkResponse 200 "OK" (Some (VObj [("api_key", VStr demo_key)])))
      else Responded (mkResponse 404 "Not Found" None)
  end.

Definition w0 : World := mkWorld demo_server [] ∅ None.

Definition boot_ok : ApiService.LogData :=
  ApiService.mkLogData "boot ok" "INFO" "auth" None None.

Definition new_project : Types.CreateProjectRequest :=
  Types.mkCreateProjectRequest "web" None "tok-u1".

(** The world after registering and creating the project. *)
Definition w_registered : World := (AuthService.registerUser auth w0).2.
Definition w_created : World := (AuthService.createProject auth new_project w_registered).2.

(** The server side of the concrete run: project [p1] registered under
    the digest of its key, an empty reachable queue, and a batch of three
    entries whose second has a level outside the enumerated set. *)
Definition demo_digest (k : string) : string := "sha:" +:+ k.
Definition demo_parse (t : string) : option Z :=
  if String.eqb t "2025-01-01T00:00:00Z" then Some 1735689600 else None.
Definition demo_gateway : Backend.Gateway :=
  Backend.mkGateway [Backend.mkKeyRecord "p1" (demo_digest demo_key) false]
                    (Backend.mkQueue true []) 0 1735689700 Backend.DocumentStore.
Definition demo_batch : list Backend.RawEntry :=
  [Backend.mkRawEntry "boot ok" (Some "INFO") "auth" None [];
   Backend.mkRawEntry "disk" (Some "BOGUS") "auth" None [];
   Backend.mkRawEntry "ready" None "auth" (Some "2025-01-01T00:00:00Z") []].
Definition demo_ingest :=
  Backend.ingestBatch demo_digest demo_parse "ok" (fun _ _ => "batch accepted")
                      demo_gateway demo_batch demo_key None.

(** Entries of two projects in one store. *)
Definition demo_store : list Backend.LogEntry :=
  [Backend.mkLogEntry 0 100 Backend.INFO "auth" "boot ok" [] "p1";
   Backend.mkLogEntry 1 105 Backend.ERROR "auth" "disk full" [] "p2";
   Backend.mkLogEntry 2 110 Backend.INFO "web" "ready" [] "p1";
   Backend.mkLogEntry 3 110 Backend.INFO "web" "ready again" [] "p1"].
Definition any_filter (page size : Z) : Backend.Filter :=
  Backend.mkFilter None None None None None page size.

(** The URLs the parser accepts here: the absolute [http] ones. *)
Definition url_is_absolute (text : string) : bool :=
  String.prefix "http://" text || String.prefix "https://" text.

(** A service object configured with a relative base. *)
Definition relative : ApiService.t := ApiService.mk "/api".

(** A server whose answer to everything is an ok document of its own
    shape. *)
Definition shapeless_server (history : list Request) (r : Request) : fetch_outcome :=
  Responded (mkResponse 200 "OK" (Some (VObj [("items", VArr [])]))).
Definition w_shapeless : World := mkWorld shapeless_server [] ∅ None.


(** A second service object, pointed at a base URL the server does not
    serve, and a world whose stored project list is not an array. *)
Definition elsewhere : AuthService.t := AuthService.mk "http://elsewhere".
Definition w_odd_projects : World :=
  mkWorld demo_server [] ∅
    (Some (Types.mkStoredCredentials
             (Types.mkUser (VStr "u1") (VStr "ada") (VStr "tok-u1"))
             (VStr "tok-u1") VNull)).

End Scenario.

(* ===================================================================== *)
(** ** components/LogFilters.tsx: the filter bar and the date picker *)
(* ===================================================================== *)
Module FiltersComponent.
Import Types.

(** [keyof LogFilters], for the fields the filter bar sets. *)
Inductive key := Kquery | Klevel | Kservice | KstartDate | KendDate.

(** [{ ...filters, [key]: value }], what [handleChange] hands to
    [onFilterChange]. *)
Definition handleChange (filters : LogFilters) (k : key) (v : string) : LogFilters :=
  match k with
  | Kquery => mkLogFilters v (level filters) (service filters)
                           (startDate filters) (endDate filters)
  | Klevel => mkLogFilters (query filters) v (service filters)
                           (startDate filters) (endDate filters)
  | Kservice => mkLogFilters (query filters) (level filters) v
                             (startDate filters) (endDate filters)
  | KstartDate => mkLogFilters (query filters) (level filters) (service filters)
                               v (endDate filters)
  | KendDate => mkLogFilters (query filters) (level filters) (service filters)
                             (startDate filters) v
  end.

(** The object [clearFilters] hands to [onFilterChange]. *)
Definition clearFilters : LogFilters := mkLogFilters "" "ALL" "ALL" "" "".

(** The condition under which the Clear button is rendered:
    [filters.query || filters.level !== 'ALL' || filters.service !== 'ALL'
     || filters.startDate]. *)
Definition clear_visible (filters : LogFilters) : bool :=
  truthy (VStr (query filters))
  || negb (String.eqb (level filters) "ALL")
  || negb (String.eqb (service filters) "ALL")
  || truthy (VStr (startDate filters)).

(** [s.padStart(2, '0')] *)
Definition padStart2 (s : string) : string :=
  match String.length s with
  | O => "00" +:+ s
  | S O => "0" +:+ s
  | _ => s
  end.

(** The date text [handleDateSelect] builds for a day of the month on
    display ([month] as [getMonth] gives it, from 0). *)
Definition date_text (year month day : Z) : string :=
  pretty year +:+ "-" +:+ padStart2 (pretty (month + 1))
              +:+ "-" +:+ padStart2 (pretty day).

(** The month on display, as year and month; [new Date(year, month)] is
    the first day of a month, with the month carried over into the year,
    and with a year from 0 to 99 read as 1900 + year. *)
Definition new_Date (year month : Z) : Z * Z :=
  let year := if (0 <=? year) && (year <=? 99) then 1900 + year else year in
  (year + month / 12, month mod 12).

Definition handlePrevMonth (currentMonth : Z * Z) : Z * Z :=
  new_Date currentMonth.1 (currentMonth.2 - 1).

Definition handleNextMonth (currentMonth : Z * Z) : Z * Z :=
  new_Date currentMonth.1 (currentMonth.2 + 1).

Section Calendar.

(** What the calendar of [Date] answers for a month: [getDate()] of day 0 of
    the next month (the number of days), and [getDay()] of its first day
    (0 for Sunday). *)
Variable daysInMonth : Z -> Z -> Z.
Variable startingDayOfWeek : Z -> Z -> Z.

(** [getDaysInMonth]: one [null] per weekday before the first day, then the
    days from 1. *)
Definition getDaysInMonth (date : Z * Z) : list (option Z) :=
  replicate (Z.to_nat (startingDayOfWeek date.1 date.2)) None
  ++ (Some <$> seqZ 1 (daysInMonth date.1 date.2)).

(** The cells that get a button ([day && ...]). *)
Definition day_buttons (date : Z * Z) : list Z :=
  omap (fun d => match d with
                 | Some n => if n =? 0 then None else Some n
                 | None => None
                 end) (getDaysInMonth date).

(** The cell of [day] is drawn as selected:
    [value === `${year}-${month}-${day}`]. *)
Definition selected (value : string) (date : Z * Z) (day : Z) : bool :=
  String.eqb value (date_text date.1 date.2 day).

End Calendar.

End FiltersComponent.

(* ===================================================================== *)
(** ** components/LogsPage.tsx: loading data *)
(* ===================================================================== *)
Module LogsScreen.
Import Types.

(** [Showing {from} to {to} of {total} results] *)
Definition showing_from (st : LogsPage.State) : Z :=
  (page (LogsPage.pagination st) - 1) * size (LogsPage.pagination st) + 1.
Definition showing_to (st : LogsPage.State) : Z :=
  Z.min (page (LogsPage.pagination st) * size (LogsPage.pagination st))
        (total (LogsPage.pagination st)).

(** The state of the page that the two loaders read and set.  The total is
    whatever the last answer had under [total]. *)
Record Screen := mkScreen {
  filters : LogFilters;
  page : Z;
  size : Z;
  total : value;
  storageBackend : string;
  logs : value;
  loading : bool;
  availableServices : value
}.

(** A call of one of the state setters a loader makes. *)
Inductive setter :=
| SetLoading (b : bool)
| SetLogs (data : value)
| SetTotal (total : value)          (* [setPagination(prev => ({ ...prev, total }))] *)
| SetAvailableServices (services : value).


(** What a run of a loader does: the setter calls made at once, and the
    setter calls made when the awaited call has settled.  Other handlers may
    run in between. *)
Record Run := mkRun { at_once : list setter; on_settle : list setter }.

(** The parameters [loadData] passes on, from the state its render saw. *)
Definition params (scr : Screen) (project_id : option string)
  : ApiService.FetchLogsParams :=
  ApiService.mkParams (page scr) (size scr)
    (Some (query (filters scr))) (Some (level (filters scr)))
    (Some (service (filters scr))) (Some (startDate (filters scr)))
    (Some (endDate (filters scr))) (Some (storageBackend scr)) project_id.

Section WithURL.
Variable URL_valid : string -> bool.


(** [loadServices], run when the backend changes: the one call of
    [setAvailableServices] it makes, with an empty list when the call
    fails. *)
Definition loadServices (apiService : ApiService.t) (storageBackend : string)
  : World -> Run * World :=
  fun w =>
    match LogService.getServices URL_valid apiService (Some storageBackend) w with
    | (Ok services, w') => (mkRun [] [SetAvailableServices services], w')
    | (Throw _, w') => (mkRun [] [SetAvailableServices (VArr [])], w')
    end.

End WithURL.

End LogsScreen.

(* ===================================================================== *)
(** ** components/HomePage.tsx and JoinPage.tsx: account bootstrap *)
(* ===================================================================== *)
Module HomePage.
Import Types.

Record State := mkState {
  loading : bool;
  error : option exn;               (* the error whose message is shown *)
  user : option value               (* [{ username }] *)
}.

Definition initial : State := mkState true None None.

(** [initUser], the effect run on mount. *)
Definition initUser (auth : AuthService.t) (st : State) : World -> State * World :=
  fun w =>
    match (AuthService.getCredentials w).1 with
    | Ok (Some c) => (mkState false (error st) (Some (username (Types.user c))), w)
    | _ =>
        match AuthService.registerUser auth w with
        | (Ok userData, w') => (mkState false (error st) (Some (username userData)), w')
        | (Throw e, w') => (mkState false (Some e) (user st), w')
        end
    end.

End HomePage.

Module JoinPage.
Import Types.

Record State := mkState {
  loading : bool;
  error : option exn;
  user : option (value * value)     (* [{ username, api_key }] *)
}.

Definition initial : State := mkState true None None.

(** [createAccount], the effect run on mount. *)
Definition createAccount (auth : AuthService.t) (st : State) : World -> State * World :=
  fun w =>
    match AuthService.registerUser auth w with
    | (Ok userData, w') =>
        (mkState false (error st) (Some (username userData, api_key userData)), w')
    | (Throw e, w') => (mkState false (Some e) (user st), w')
    end.

End JoinPage.

(* ===================================================================== *)
(** ** components/ProjectsPage.tsx: listing, key modal, logout *)
(* ===================================================================== *)
Module ProjectsPage.
Import Types.

(** The component state the three handlers below touch, and where the page
    navigated to. *)
Record State := mkState {
  projects : value;
  loading : bool;
  showApiModal : bool;
  selectedProject : option Project;
  projectApiKey : value;
  loadingApiKey : bool;
  error : option exn;
  navigated : option string
}.

Definition initial : State :=
  mkState (VArr []) true false None (VStr "") false None None.

(** [loadProjects], run when the page is mounted, with the credentials
    [getCredentials] gave to that render. *)
Definition loadProjects (auth : AuthService.t) (st : State) : World -> State * World :=
  fun w =>
    let token := AuthService.optional_oauth_token (credentials w) in
    if negb (truthy token) then
      (mkState (projects st) (loading st) (showApiModal st) (selectedProject st)
               (projectApiKey st) (loadingApiKey st) (error st) (Some "/join"), w)
    else
      match AuthService.getProjects auth (to_string token) w with
      | (Ok projectsData, w') =>
          (mkState projectsData false (showApiModal st) (selectedProject st)
                   (projectApiKey st) (loadingApiKey st) (error st) (navigated st), w')
      | (Throw e, w') =>
          (mkState (projects st) false (showApiModal st) (selectedProject st)
                   (projectApiKey st) (loadingApiKey st) (Some e) (navigated st), w')
      end.

(** [handleViewApiKeys], from the click to the end of the call, with no
    other handler of the page run in between. *)
Definition handleViewApiKeys (auth : AuthService.t) (project : Project) (st : State)
  : World -> State * World :=
  fun w =>
    match AuthService.getProjectApiKey auth (to_string (p_id project)) w with
    | (Ok apiKey, w') =>
        (mkState (projects st) (loading st) true (Some project) apiKey false
                 (error st) (navigated st), w')
    | (Throw e, w') =>
        (mkState (projects st) (loading st) true (Some project) (VStr "") false
                 (Some e) (navigated st), w')
    end.

Definition handleLogout (st : State) : World -> State * World :=
  fun w =>
    (mkState (projects st) (loading st) (showApiModal st) (selectedProject st)
             (projectApiKey st) (loadingApiKey st) (error st) (Some "/"),
     (AuthService.clearCredentials w).2).

End ProjectsPage.

(* ===================================================================== *)
(** ** Vocabulary of the statements about stored state and bodies *)
(* ===================================================================== *)
Module Shapes.
Import Types.

(** The stored document is the one of the credentials in memory, and there
    is none when there are no credentials. *)
Definition synced (w : World) : Prop :=
  localStorage w !! AuthService.STORAGE_KEY
  = (fun c => stringify (credentials_value c)) <$> credentials w.

(** Nothing of the client's own state differs between two worlds; only the
    log of requests may. *)
Definition same_state (w w' : World) : Prop :=
  credentials w' = credentials w /\ localStorage w' = localStorage w
  /\ server w' = server w.

(** How the state of a world after a call relates to the one before: it is
    the same, or the credentials were saved, or they were cleared. *)
Inductive state_step (w w' : World) : Prop :=
| step_same : same_state w w' -> state_step w w'
| step_saved (c : StoredCredentials) :
    credentials w' = Some c ->
    localStorage w' = <[AuthService.STORAGE_KEY := stringify (credentials_value c)]> (localStorage w) ->
    server w' = server w ->
    state_step w w'
| step_cleared :
    credentials w' = None ->
    localStorage w' = delete AuthService.STORAGE_KEY (localStorage w) ->
    server w' = server w ->
    state_step w w'.

(** The property names of an object, in order. *)
Definition obj_keys (v : value) : list string :=
  match v with VObj fields => fields.*1 | _ => [] end.

Definition opt_key (k : string) (present : bool) : list string :=
  if present then [k] else [].

(** The requests of the account calls. *)
Definition join_request (auth : AuthService.t) : Request :=
  mkRequest POST (mkUrl (AuthService.baseUrl auth +:+ "/join") [])
            [("Content-Type", "application/json")] None.

Definition create_request (auth : AuthService.t) (d : CreateProjectRequest) : Request :=
  mkRequest POST (mkUrl (AuthService.baseUrl auth +:+ "/projects") [])
            [("Content-Type", "application/json")]
            (Some (stringify (AuthService.createProjectRequest_value d))).

Definition projects_request (auth : AuthService.t) (token : string) : Request :=
  mkRequest GET (mkUrl (AuthService.baseUrl auth +:+ "/projects")
                       [("oauth_token", token)]) [] None.

Definition api_key_request (auth : AuthService.t) (projectId : string) (token : value)
  : Request :=
  mkRequest GET (mkUrl (AuthService.baseUrl auth +:+ "/projects/" +:+ projectId
                          +:+ "/api-key")
                       [("oauth_token", to_string token)]) [] None.

(** A call of the account service, and a session of calls one after the
    other. *)
Inductive auth_call :=
| Register
| Create (d : CreateProjectRequest)
| ListProjects (token : string)
| ViewApiKey (projectId : string)
| Logout.

Definition auth_call_run (auth : AuthService.t) (w : World) (c : auth_call) : World :=
  match c with
  | Register => (AuthService.registerUser auth w).2
  | Create d => (AuthService.createProject auth d w).2
  | ListProjects token => (AuthService.getProjects auth token w).2
  | ViewApiKey projectId => (AuthService.getProjectApiKey auth projectId w).2
  | Logout => (AuthService.clearCredentials w).2
  end.

Definition auth_session (auth : AuthService.t) (w : World) (cs : list auth_call) : World :=
  fold_left (auth_call_run auth) cs w.

Definition log_request (api : ApiService.t) (d : ApiService.LogData) : Request :=
  mkRequest POST (mkUrl (ApiService.baseUrl api +:+ "/ingest") [])
            [("Content-Type", "application/json")]
            (Some (stringify (ApiService.logData_value d))).

Definition batch_request (api : ApiService.t) (logs : list ApiService.LogData) : Request :=
  mkRequest POST (mkUrl (ApiService.baseUrl api +:+ "/ingest/batch") [])
            [("Content-Type", "application/json")]
            (Some (VArr (List.map (fun d => stringify (ApiService.logData_value d)) logs))).

Definition services_request (api : ApiService.t) (backend : string) : Request :=
  mkRequest GET (mkUrl (ApiService.baseUrl api +:+ "/logs/services")
                       (Contract.str_entry "backend" (Contract.nonempty (Some backend))))
            [] None.


End Shapes.

(* ===================================================================== *)
(** * Properties *)
(* ===================================================================== *)

(** ** The request builder *)
Section RequestBuilder.
Import ApiService.
Variable URL_valid : string -> bool.

Lemma build_query_from (acc : list (string * string)) (params : obj) :
  fold_left append_entry params acc
  = acc ++ List.map (fun kv => (kv.1, to_string kv.2))
                    (List.filter (fun kv => keep kv.2) params).
Proof.
  revert acc. induction params as [|[k v] params IH]; intros acc; simpl.
  - by rewrite app_nil_r.
  - rewrite IH. unfold append_entry. simpl. destruct (keep v); simpl.
    + by rewrite <- app_assoc.
    + done.
Qed.

Lemma build_query_filter (params : obj) :
  build_query params
  = List.map (fun kv => (kv.1, to_string kv.2))
             (List.filter (fun kv => keep kv.2) params).
Proof. unfold build_query. by rewrite build_query_from. Qed.

Lemma build_query_app (a b : obj) :
  build_query (a ++ b) = build_query a ++ build_query b.
Proof. rewrite !build_query_filter, List.filter_app. apply List.map_app. Qed.

Lemma keep_spec (v : value) :
  keep v = true <-> v <> VUndefined /\ v <> VNull /\ v <> VStr "".
Proof.
  unfold keep. destruct v as [| |b|n|s|l|f]; simpl; try (split; [intros _; by repeat split | done]).
  - split; [done | intros [H _]; by destruct H].
  - split; [done | intros (_ & H & _); by destruct H].
  - destruct s as [|c s]; simpl.
    + split; [done | intros (_ & _ & H); by destruct H].
    + split; [intros _; by repeat split | done].
Qed.

Lemma truthy_keep (v : value) : truthy v = true -> keep v = true.
Proof. by destruct v as [| |b|n|[|c s]|l|f]. Qed.

(** When the URL constructor refuses the text, [request] throws and hands
    nothing to [fetch]. *)
Lemma request_invalid (self : t) (endpoint : string) (params : option obj) (w : World) :
  URL_valid (baseUrl self +:+ endpoint) = false ->
  request URL_valid self endpoint params w = (Throw TypeError, w).
Proof. intros H. unfold request. by rewrite H. Qed.

(** Otherwise every run of [request] hands exactly one request to [fetch]. *)
Lemma request_sent (self : t) (endpoint : string) (params : option obj) (w : World) :
  URL_valid (baseUrl self +:+ endpoint) = true ->
  sent (request URL_valid self endpoint params w).2
  = sent w ++ [mkRequest GET (request_url self endpoint params) [] None].
Proof.
  intros Hurl. unfold request. rewrite Hurl. simpl. unfold try_catch, bind, fetch.
  destruct (server w (sent w) _) as [|resp]; simpl; [done|].
  destruct (ok resp); simpl.
  - unfold json. by destruct (body resp).
  - unfold throw_http_error, bind, try_catch, json.
    destruct (body resp) as [[| |b|n|s|l|f]|]; simpl; done.
Qed.

End RequestBuilder.

(** ** [fetchLogs] and [getServices] *)
Section Queries.
Import ApiService Contract.
Variable URL_valid : string -> bool.

Lemma assoc_app {A} (k : string) (a b : list (string * A)) :
  assoc k (a ++ b) = match assoc k a with Some v => Some v | None => assoc k b end.
Proof.
  induction a as [|[k' v] a IH]; simpl; [done|].
  by destruct (String.eqb k' k).
Qed.

Lemma set_prop_fresh (k : string) (v : value) (a : obj) :
  assoc k a = None -> set_prop k v a = a ++ [(k, v)].
Proof.
  induction a as [|[k' v'] a IH]; simpl; [done|].
  destruct (String.eqb k' k); [done|]. intros H. by rewrite IH.
Qed.

Lemma assoc_opt_entry_ne (k k' : string) (o : option string) :
  String.eqb k' k = false -> assoc k (opt_entry k' o) = None.
Proof. intros H. destruct o; simpl; [by rewrite H | done]. Qed.

(** The key about to be set is not yet a property of the object built so
    far. *)
Local Ltac fresh_key :=
  rewrite ?assoc_app, ?assoc_opt_entry_ne by reflexivity; reflexivity.

Lemma set_if_nonempty (k : string) (o : option string) (a : obj) :
  assoc k a = None ->
  (if truthy (of_opt o) then set_prop k (of_opt o) a else a)
  = a ++ opt_entry k (nonempty o).
Proof.
  intros H. destruct o as [[|c s]|]; simpl; rewrite ?app_nil_r; try done.
  by apply set_prop_fresh.
Qed.

Lemma set_if_unless (sentinel k : string) (o : option string) (a : obj) :
  assoc k a = None ->
  (if truthy (of_opt o) && negb (strict_eq_str (of_opt o) sentinel)
   then set_prop k (of_opt o) a else a)
  = a ++ opt_entry k (unless sentinel o).
Proof.
  intros H. unfold unless, nonempty, opt_entry, truthy, strict_eq_str, of_opt.
  destruct o as [s|]; [|by rewrite app_nil_r].
  destruct (String.eqb s ""), (String.eqb s sentinel); cbn [negb andb];
    rewrite ?app_nil_r; try done.
  by apply set_prop_fresh.
Qed.

(** [apiParams] is the page and size followed by one property per filter
    that is set. *)
Lemma apiParams_entries (p : FetchLogsParams) :
  apiParams p
  = [("page", VNum (page p)); ("size", VNum (size p))]
    ++ opt_entry "search" (nonempty (search p))
    ++ opt_entry "level" (unless "ALL" (level p))
    ++ opt_entry "service" (unless "ALL" (service p))
    ++ opt_entry "from_ts" (nonempty (startDate p))
    ++ opt_entry "to_ts" (nonempty (endDate p))
    ++ opt_entry "backend" (nonempty (backend p))
    ++ opt_entry "project_id" (nonempty (project_id p)).
Proof.
  unfold apiParams.
  rewrite (set_if_nonempty "search") by fresh_key.
  rewrite (set_if_unless "ALL" "level") by fresh_key.
  rewrite (set_if_unless "ALL" "service") by fresh_key.
  rewrite (set_if_nonempty "from_ts") by fresh_key.
  rewrite (set_if_nonempty "to_ts") by fresh_key.
  rewrite (set_if_nonempty "backend") by fresh_key.
  rewrite (set_if_nonempty "project_id") by fresh_key.
  by rewrite <- !app_assoc.
Qed.

Lemma nonempty_keep (o : option string) (s : string) :
  nonempty o = Some s -> keep (VStr s) = true.
Proof.
  destruct o as [[|c s']|]; simpl; try done. by intros [= <-].
Qed.

Lemma unless_keep (sentinel : string) (o : option string) (s : string) :
  unless sentinel o = Some s -> keep (VStr s) = true.
Proof.
  unfold unless. destruct (nonempty o) as [s'|] eqn:E; [|done].
  destruct (String.eqb s' sentinel); [done|]. intros [= <-].
  by apply nonempty_keep with o.
Qed.

Lemma build_query_opt_entry (k : string) (o : option string) :
  (forall s, o = Some s -> keep (VStr s) = true) ->
  build_query (opt_entry k o) = str_entry k o.
Proof.
  intros H. destruct o as [s|]; [|done].
  unfold build_query. simpl. unfold append_entry. simpl.
  by rewrite (H s eq_refl).
Qed.

Lemma build_query_apiParams (p : FetchLogsParams) :
  build_query (apiParams p) = logs_query p.
Proof.
  rewrite apiParams_entries. unfold logs_query.
  rewrite !build_query_app.
  rewrite !build_query_opt_entry
    by (intros s Hs; first [ by apply nonempty_keep in Hs | by apply unless_keep in Hs ]).
  reflexivity.
Qed.

(** What [request] returns is decided by the answer to its one request. *)
Lemma request_result (self : t) (endpoint : string) (params : option obj) (w : World) :
  URL_valid (baseUrl self +:+ endpoint) = true ->
  (request URL_valid self endpoint params w).1
  = body_or_error (server w (sent w)
                     (mkRequest GET (request_url self endpoint params) [] None)).
Proof.
  intros Hurl. unfold request. rewrite Hurl. simpl.
  unfold try_catch, bind, fetch, body_or_error.
  destruct (server w (sent w) _) as [|resp]; simpl; [done|].
  destruct (ok resp); simpl.
  - unfold json. by destruct (body resp).
  - unfold throw_http_error, bind, try_catch, json.
    destruct (body resp) as [[| |b|n|s|l|f]|]; simpl; done.
Qed.

Lemma assoc_str_entry (k k' : string) (o : option string) :
  assoc k (str_entry k' o) = if String.eqb k' k then o else None.
Proof. destruct o; simpl; by destruct (String.eqb k' k). Qed.



Lemma nonempty_idemp (o : option string) : nonempty (nonempty o) = nonempty o.
Proof.
  destruct o as [s|]; simpl; [|done].
  destruct (String.eqb s "") eqn:E; simpl; [done | by rewrite E].
Qed.

Lemma keep_false_dropped (a b : obj) (k : string) (v : value) :
  keep v = false -> build_query (a ++ (k, v) :: b) = build_query (a ++ b).
Proof.
  intros H. rewrite !build_query_app. f_equal.
  change ((k, v) :: b) with ([(k, v)] ++ b). rewrite build_query_app.
  unfold build_query at 1. simpl. unfold append_entry. simpl. by rewrite H.
Qed.


Lemma getServices_other (self : t) (backend : option string) (w : World) :
  backend <> Some "s3" ->
  getServices URL_valid self backend w
  = request URL_valid self "/logs/services"
      (Some (opt_entry "backend" (nonempty backend))) w.
Proof.
  intros Hb. unfold getServices.
  assert (Hs : strict_eq_str (of_opt backend) "s3" = false).
  { destruct backend as [s|]; simpl; [|done].
    destruct (String.eqb s "s3") eqn:E; [|done].
    apply String.eqb_eq in E. by subst s. }
  rewrite (set_if_unless "s3" "backend") by reflexivity. rewrite Hs.
  assert (Hu : unless "s3" backend = nonempty backend).
  { unfold unless. destruct (nonempty backend) as [s|] eqn:E; [|done].
    destruct (String.eqb s "s3") eqn:E'; [|done].
    apply String.eqb_eq in E'. subst s. destruct backend as [s|]; [|done].
    simpl in E. destruct (String.eqb s ""); [done|]. by inversion E; subst. }
  by rewrite Hu.
Qed.

Lemma services_url (self : t) (backend : option string) :
  request_url self "/logs/services" (Some (opt_entry "backend" (nonempty backend)))
  = mkUrl (baseUrl self +:+ "/logs/services") (str_entry "backend" (nonempty backend)).
Proof.
  unfold request_url. f_equal.
  apply build_query_opt_entry. intros s Hs. by apply nonempty_keep in Hs.
Qed.

(** C7: [getServices] with backend ['s3'] returns [{services: []}] and
    leaves the world as it was, so no request is made; with any other
    backend value, also an absent one, and a base that the URL constructor
    accepts with [/logs/services], it sends exactly one [GET /logs/services]
    request (carrying the backend when one is given) and returns the parsed
    body of the answer; with a base the constructor refuses it throws a
    [TypeError]. *)
Theorem getServices_s3_is_local (self : t) (backend : option string) (w : World) :
  let req := mkRequest GET (mkUrl (baseUrl self +:+ "/logs/services")
                                  (str_entry "backend" (nonempty backend))) [] None in
  if bool_decide (backend = Some "s3") then
    getServices URL_valid self backend w = (Ok (VObj [("services", VArr [])]), w)
  else
    (URL_valid (baseUrl self +:+ "/logs/services") = true ->
     sent (getServices URL_valid self backend w).2 = sent w ++ [req]
     /\ (getServices URL_valid self backend w).1
        = body_or_error (server w (sent w) req))
    /\ (URL_valid (baseUrl self +:+ "/logs/services") = false ->
        getServices URL_valid self backend w = (Throw TypeError, w)).
Proof.
  cbv zeta. case_bool_decide as Hb.
  - by subst backend.
  - rewrite getServices_other by done. split; intros Hv.
    + by rewrite request_sent, request_result, services_url.
    + by apply request_invalid.
Qed.

(** C10: for a base and endpoint the URL constructor accepts and
    parameter values written with safe integers, [request] sends one GET
    and puts a parameter in its URL exactly when its value is not
    [undefined], not [null] and not the empty string (and then as
    [String(value)], in the order of the object); a parameter holding one
    of those three is the same as one that is not there; and [fetchLogs]
    with an empty search, start or end date is the same call as with that
    field absent.  For a base and endpoint the constructor refuses,
    [request] throws a [TypeError] before it looks at the parameters. *)
Theorem request_appends_params_iff (self : t) (endpoint : string) (params : obj)
        (w : World) :
  let q := searchParams (request_url self endpoint (Some params)) in
  (URL_valid (baseUrl self +:+ endpoint) = true ->
   Forall (fun kv => safe kv.2 = true) params ->
   sent (request URL_valid self endpoint (Some params) w).2
   = sent w ++ [mkRequest GET (mkUrl (baseUrl self +:+ endpoint) q) [] None]
   /\ (forall k s, In (k, s) q <->
         exists v, In (k, v) params
                   /\ (v <> VUndefined /\ v <> VNull /\ v <> VStr "")
                   /\ s = to_string v))
  /\ (forall a b k,
        build_query (a ++ (k, VUndefined) :: b) = build_query (a ++ b)
        /\ build_query (a ++ (k, VNull) :: b) = build_query (a ++ b)
        /\ build_query (a ++ (k, VStr "") :: b) = build_query (a ++ b))
  /\ (forall p, fetchLogs URL_valid self p w
                = fetchLogs URL_valid self (without_blanks p) w)
  /\ (URL_valid (baseUrl self +:+ endpoint) = false ->
      request URL_valid self endpoint (Some params) w = (Throw TypeError, w)).
Proof.
  cbv zeta. split; [|split; [|split]]; [| | |by apply request_invalid].
  - intros Hv _. split; [by apply request_sent|].
    intros k s. simpl. rewrite build_query_filter, List.in_map_iff. split.
    + intros ([k' v] & [= <- <-] & Hin). apply List.filter_In in Hin as [Hin Hk].
      exists v. split; [done|]. split; [by apply keep_spec | done].
    + intros (v & Hin & Hv' & ->). exists (k, v). split; [done|].
      apply List.filter_In. split; [done | by apply keep_spec].
  - intros a b k. by rewrite !keep_false_dropped.
  - intros p. unfold fetchLogs. f_equal. f_equal.
    rewrite !apiParams_entries. simpl. by rewrite !nonempty_idemp.
Qed.

End Queries.



Lemma getServices_s3_is_local_witness :
  ApiService.getServices Scenario.url_is_absolute Scenario.api (Some "s3") Scenario.w0
  = (Ok (VObj [("services", VArr [])]), Scenario.w0)
  /\ sent (ApiService.getServices Scenario.url_is_absolute Scenario.api (Some "sqlite")
             Scenario.w0).2
     = [mkRequest GET (mkUrl "http://localhost:8000/logs/services" [("backend", "sqlite")])
          [] None]
  /\ ApiService.getServices Scenario.url_is_absolute Scenario.relative (Some "sqlite")
       Scenario.w0
     = (Throw TypeError, Scenario.w0).
Proof.
  split; [|split].
  - exact (getServices_s3_is_local Scenario.url_is_absolute Scenario.api (Some "s3")
             Scenario.w0).
  - pose proof (getServices_s3_is_local Scenario.url_is_absolute Scenario.api
                  (Some "sqlite") Scenario.w0) as [Hgood _].
    exact (proj1 (Hgood eq_refl)).
  - pose proof (getServices_s3_is_local Scenario.url_is_absolute Scenario.relative
                  (Some "sqlite") Scenario.w0) as [_ Hbad].
    exact (Hbad eq_refl).
Defined.

Lemma request_appends_params_iff_witness :
  let params := [("page", VNum 2); ("search", VStr ""); ("level", VNull);
                 ("service", VUndefined); ("live", VBool false); ("backend", VStr "sqlite")] in
  sent (ApiService.request Scenario.url_is_absolute Scenario.api "/logs" (Some params)
          Scenario.w0).2
  = [mkRequest GET
       (mkUrl "http://localhost:8000/logs"
          [("page", "2"); ("live", "false"); ("backend", "sqlite")]) [] None]
  /\ ApiService.request Scenario.url_is_absolute Scenario.relative "/logs" (Some params)
       Scenario.w0
     = (Throw TypeError, Scenario.w0).
Proof.
  cbv zeta.
  pose proof (request_appends_params_iff Scenario.url_is_absolute Scenario.api "/logs"
                [("page", VNum 2); ("search", VStr ""); ("level", VNull);
                 ("service", VUndefined); ("live", VBool false); ("backend", VStr "sqlite")]
                Scenario.w0) as (Hgood & _ & _ & _).
  pose proof (request_appends_params_iff Scenario.url_is_absolute Scenario.relative "/logs"
                [("page", VNum 2); ("search", VStr ""); ("level", VNull);
                 ("service", VUndefined); ("live", VBool false); ("backend", VStr "sqlite")]
                Scenario.w0) as (_ & _ & _ & Hbad).
  split; [|exact (Hbad eq_refl)].
  refine (proj1 (Hgood eq_refl _)).
  repeat constructor.
Defined.

(** ** Ingestion calls of the client *)
Section Ingestion.
Import ApiService Contract.

(** A POST that returns the parsed body: the outcome is decided by the
    answer to the one request. *)
Lemma post_result (req : Request) (w : World) :
  (bind (fetch req)
        (fun response => if negb (ok response) then throw_http_error response
                         else json response) w).1
  = body_or_error (server w (sent w) req).
Proof.
  unfold bind, fetch, body_or_error.
  destruct (server w (sent w) req) as [|resp]; simpl; [done|].
  destruct (ok resp); simpl.
  - unfold json. by destruct (body resp).
  - unfold throw_http_error, bind, try_catch, json.
    destruct (body resp) as [[| |b|n|s|l|f]|]; simpl; done.
Qed.

Lemma post_sent (req : Request) (w : World) :
  sent (bind (fetch req)
             (fun response => if negb (ok response) then throw_http_error response
                              else json response) w).2
  = sent w ++ [req].
Proof.
  unfold bind, fetch.
  destruct (server w (sent w) req) as [|resp]; simpl; [done|].
  destruct (ok resp); simpl.
  - unfold json. by destruct (body resp).
  - unfold throw_http_error, bind, try_catch, json.
    destruct (body resp) as [[| |b|n|s|l|f]|]; simpl; done.
Qed.

(** C5: what [ingestLog] does for every log and in every world: it sends
    one [POST /ingest] whose only header is [Content-Type]; there is no
    [X-API-Key] header on it.  The parsed body of an ok answer is returned
    as it is; an answer that is not ok is thrown as an [Error] whose message
    is the [detail] of the body when there is one and the status line
    otherwise. *)
Theorem ingestLog_sends_no_api_key (self : t) (logData : LogData) (w : World) :
  let req := mkRequest POST (mkUrl (baseUrl self +:+ "/ingest") [])
               [("Content-Type", "application/json")]
               (Some (stringify (logData_value logData))) in
  sent (ingestLog self logData w).2 = sent w ++ [req]
  /\ assoc "X-API-Key" (req_headers req) = None
  /\ (ingestLog self logData w).1 = body_or_error (server w (sent w) req).
Proof.
  cbv zeta. unfold ingestLog. rewrite post_sent, post_result. by repeat split.
Qed.

(** [logService.getServices] hands on the list of the local answer. *)
Lemma logService_getServices_s3 (URL_valid : string -> bool) (self : t) (w : World) :
  LogService.getServices URL_valid self (Some "s3") w = (Ok (VArr []), w).
Proof. reflexivity. Qed.

(** The call of the concrete run: the log [boot ok] for a project whose key
    the client holds is refused, since the key is not on the request. *)
Example ingestLog_boot_ok_refused :
  (ingestLog Scenario.api Scenario.boot_ok Scenario.w_created).1
  = Throw (Error "Missing API key").
Proof. vm_compute. reflexivity. Qed.

End Ingestion.

(** ** Credentials kept by the client *)
Section Credentials.
Import Types AuthService Contract.

(** C8: after a successful [registerUser] the client holds credentials
    whose [oauth_token] is the very [api_key] of the stored user (the user
    that was returned), with no projects yet; the document written to
    [localStorage] is that of these credentials, and in it the
    [oauth_token] field and the [api_key] field of [user] are equal too. *)
Theorem registerUser_token_is_api_key (self : t) (w : World) (u : User) :
  (registerUser self w).1 = Ok u ->
  exists c,
    credentials (registerUser self w).2 = Some c
    /\ user c = u
    /\ oauth_token c = api_key (user c)
    /\ projects c = VArr []
    /\ localStorage (registerUser self w).2 !! STORAGE_KEY
       = Some (stringify (credentials_value c))
    /\ doc_field (stringify (credentials_value c)) "oauth_token"
       = doc_field (doc_field (stringify (credentials_value c)) "user") "api_key".
Proof.
  unfold registerUser, bind, fetch.
  destruct (server w (sent w) _) as [|resp]; simpl; [done|].
  destruct (ok resp); simpl.
  2:{ unfold throw_http_error, bind, try_catch, json.
      destruct (body resp) as [[| |b|n|s|l|f]|]; simpl; done. }
  unfold json. destruct (body resp) as [userData|]; simpl; [|done].
  unfold get_prop.
  destruct (read_prop userData "id") as [uid|] eqn:Hid; simpl; [|done].
  destruct (read_prop userData "username") as [uname|] eqn:Hname; simpl; [|done].
  destruct (read_prop userData "api_key") as [key|] eqn:Hkey; simpl; [|done].
  intros [= <-]. eexists. split; [reflexivity|].
  split; [done|]. split; [done|]. split; [done|].
  split; [by rewrite lookup_insert_eq|].
  unfold credentials_value, user_value. simpl.
  destruct uid, uname, key; reflexivity.
Qed.

Lemma registerUser_token_is_api_key_witness :
  (registerUser Scenario.auth Scenario.w0).1
  = Ok (mkUser (VStr "u1") (VStr "ada") (VStr "tok-u1"))
  /\ exists c,
       credentials (registerUser Scenario.auth Scenario.w0).2 = Some c
       /\ user c = mkUser (VStr "u1") (VStr "ada") (VStr "tok-u1")
       /\ oauth_token c = api_key (user c)
       /\ projects c = VArr []
       /\ localStorage (registerUser Scenario.auth Scenario.w0).2 !! STORAGE_KEY
          = Some (stringify (credentials_value c))
       /\ doc_field (stringify (credentials_value c)) "oauth_token"
          = doc_field (doc_field (stringify (credentials_value c)) "user") "api_key".
Proof.
  assert (H : (registerUser Scenario.auth Scenario.w0).1
              = Ok (mkUser (VStr "u1") (VStr "ada") (VStr "tok-u1")))
    by (vm_compute; reflexivity).
  split; [exact H|].
  exact (registerUser_token_is_api_key Scenario.auth Scenario.w0 _ H).
Defined.

Lemma getProjectApiKey_run (self : t) (projectId : string) (w : World) :
  let token := optional_oauth_token (credentials w) in
  let req := mkRequest GET
               (mkUrl (baseUrl self +:+ "/projects/" +:+ projectId +:+ "/api-key")
                      [("oauth_token", to_string token)]) [] None in
  if truthy token then
    sent (getProjectApiKey self projectId w).2 = sent w ++ [req]
    /\ (getProjectApiKey self projectId w).1
       = field_or_error "api_key" (server w (sent w) req)
    /\ credentials (getProjectApiKey self projectId w).2 = credentials w
    /\ localStorage (getProjectApiKey self projectId w).2 = localStorage w
  else
    getProjectApiKey self projectId w = (Throw (Error "Not authenticated"), w).
Proof.
  cbv zeta. unfold getProjectApiKey, bind, get_state. simpl.
  destruct (truthy (optional_oauth_token (credentials w))); simpl; [|done].
  unfold fetch, field_or_error, body_or_error.
  destruct (server w (sent w) _) as [|resp]; simpl; [done|].
  destruct (ok resp); simpl.
  - unfold json, get_prop. by destruct (body resp).
  - unfold throw_http_error, bind, try_catch, json.
    destruct (body resp) as [[| |b|n|s|l|f]|]; simpl; done.
Qed.

Lemma createProject_run (self : t) (projectData : CreateProjectRequest) (w : World)
      (c : StoredCredentials) (p : Project) :
  let req := mkRequest POST (mkUrl (baseUrl self +:+ "/projects") [])
               [("Content-Type", "application/json")]
               (Some (stringify (createProjectRequest_value projectData))) in
  credentials w = Some c ->
  (createProject self projectData w).1 = Ok p ->
  exists items,
    projects c = VArr items
    /\ credentials (createProject self projectData w).2
       = Some (mkStoredCredentials (user c) (oauth_token c)
                 (VArr (items ++ [project_value p])))
    /\ localStorage (createProject self projectData w).2 !! STORAGE_KEY
       = Some (stringify (credentials_value
                 (mkStoredCredentials (user c) (oauth_token c)
                    (VArr (items ++ [project_value p])))))
    /\ field_or_error "api_key" (server w (sent w) req) = Ok (p_api_key p).
Proof.
  cbv zeta. intros Hc. unfold createProject, bind, fetch, field_or_error, body_or_error.
  destruct (server w (sent w) _) as [|resp]; simpl; [done|].
  destruct (ok resp); simpl.
  2:{ unfold throw_http_error, bind, try_catch, json.
      destruct (body resp) as [[| |b|n|s|l|f]|]; simpl; done. }
  unfold json. destruct (body resp) as [r|]; simpl; [|done].
  unfold get_prop.
  destruct (read_prop r "id") as [pid|] eqn:H1; simpl; [|done].
  destruct (read_prop r "name") as [pname|] eqn:H2; simpl; [|done].
  destruct (read_prop r "description") as [pdesc|] eqn:H3; simpl; [|done].
  destruct (read_prop r "api_key") as [pkey|] eqn:H4; simpl; [|done].
  destruct (read_prop r "owner_id") as [powner|] eqn:H5; simpl; [|done].
  destruct (read_prop r "created_at") as [pcreated|] eqn:H6; simpl; [|done].
  rewrite Hc. simpl. unfold push.
  destruct (projects c) as [| |b|n|s|items|f] eqn:Hp; simpl; try done.
  intros [= <-]. exists items. split; [done|]. split; [done|].
  split; [by rewrite lookup_insert_eq | done].
Qed.

(** C2, as the client has it: [getProjectApiKey], when a token is stored,
    sends one [GET /projects/{id}/api-key] with that token and returns the
    [api_key] field of the answer as it is, leaving the stored credentials
    alone, so every call gives the key the server sends; without a stored
    token it throws [Not authenticated] and sends nothing.  And a successful
    [createProject] appends the project, with the [api_key] of the answer in
    clear text, to the stored credentials in memory and in [localStorage]. *)
Theorem api_key_kept_and_returned_in_clear :
  (forall (self : t) (projectId : string) (w : World),
     let token := optional_oauth_token (credentials w) in
     let req := mkRequest GET
                  (mkUrl (baseUrl self +:+ "/projects/" +:+ projectId +:+ "/api-key")
                         [("oauth_token", to_string token)]) [] None in
     if truthy token then
       sent (getProjectApiKey self projectId w).2 = sent w ++ [req]
       /\ (getProjectApiKey self projectId w).1
          = field_or_error "api_key" (server w (sent w) req)
       /\ credentials (getProjectApiKey self projectId w).2 = credentials w
       /\ localStorage (getProjectApiKey self projectId w).2 = localStorage w
     else
       getProjectApiKey self projectId w = (Throw (Error "Not authenticated"), w))
  /\ (forall (self : t) (projectData : CreateProjectRequest) (w : World)
             (c : StoredCredentials) (p : Project),
        let req := mkRequest POST (mkUrl (baseUrl self +:+ "/projects") [])
                     [("Content-Type", "application/json")]
                     (Some (stringify (createProjectRequest_value projectData))) in
        credentials w = Some c ->
        (createProject self projectData w).1 = Ok p ->
        exists items,
          projects c = VArr items
          /\ credentials (createProject self projectData w).2
             = Some (mkStoredCredentials (user c) (oauth_token c)
                       (VArr (items ++ [project_value p])))
          /\ localStorage (createProject self projectData w).2 !! STORAGE_KEY
             = Some (stringify (credentials_value
                       (mkStoredCredentials (user c) (oauth_token c)
                          (VArr (items ++ [project_value p])))))
          /\ field_or_error "api_key" (server w (sent w) req) = Ok (p_api_key p)).
Proof.
  split.
  - apply getProjectApiKey_run.
  - apply createProject_run.
Qed.

Lemma api_key_kept_and_returned_in_clear_witness :
  (AuthService.getProjectApiKey Scenario.auth "p1" Scenario.w_created).1
  = Ok (VStr Scenario.demo_key)
  /\ exists items,
       credentials Scenario.w_created
       = Some (mkStoredCredentials
                 (mkUser (VStr "u1") (VStr "ada") (VStr "tok-u1")) (VStr "tok-u1")
                 (VArr (items ++ [project_value
                                    (mkProject (VStr "p1") (VStr "web") VNull
                                       (VStr Scenario.demo_key) (VStr "u1")
                                       (VStr "2025-01-01T00:00:00Z"))]))).
Proof.
  destruct api_key_kept_and_returned_in_clear as [Hget Hcreate]. split.
  - pose proof (Hget Scenario.auth "p1" Scenario.w_created) as H.
    cbv zeta in H.
    change (truthy (optional_oauth_token (credentials Scenario.w_created)))
      with true in H.
    destruct H as (_ & -> & _). vm_compute. reflexivity.
  - destruct (Hcreate Scenario.auth Scenario.new_project Scenario.w_registered
                (mkStoredCredentials
                   (mkUser (VStr "u1") (VStr "ada") (VStr "tok-u1")) (VStr "tok-u1")
                   (VArr []))
                (mkProject (VStr "p1") (VStr "web") VNull
                   (VStr Scenario.demo_key) (VStr "u1")
                   (VStr "2025-01-01T00:00:00Z")))
      as (items & _ & Hc & _).
    + vm_compute. reflexivity.
    + vm_compute. reflexivity.
    + exists items. exact Hc.
Defined.

(** C2 as stated fails on the client: in the concrete run the key of
    project [p1], shown when the project was created, is in clear text in
    the stored credentials (in what [getCredentials] returns and in
    [localStorage]), and [getProjectApiKey] returns it in clear text, the
    second time as well as the first. *)
Lemma api_key_readable_after_creation :
  let first := AuthService.getProjectApiKey Scenario.auth "p1" Scenario.w_created in
  let second := AuthService.getProjectApiKey Scenario.auth "p1" first.2 in
  first.1 = Ok (VStr Scenario.demo_key)
  /\ second.1 = Ok (VStr Scenario.demo_key)
  /\ match (AuthService.getCredentials Scenario.w_created).1 with
     | Ok (Some c) => Some (projects c)
     | _ => None
     end
     = Some (VArr [VObj [("id", VStr "p1"); ("name", VStr "web");
                         ("description", VNull);
                         ("api_key", VStr Scenario.demo_key);
                         ("owner_id", VStr "u1");
                         ("created_at", VStr "2025-01-01T00:00:00Z")]])
  /\ (fun d => doc_field d "projects")
       <$> (localStorage Scenario.w_created !! STORAGE_KEY)
     = Some (VArr [VObj [("id", VStr "p1"); ("name", VStr "web");
                         ("description", VNull);
                         ("api_key", VStr Scenario.demo_key);
                         ("owner_id", VStr "u1");
                         ("created_at", VStr "2025-01-01T00:00:00Z")]]).
Proof. vm_compute. repeat split; reflexivity. Qed.

End Credentials.

(** ** Ceiling of a quotient *)
Lemma Math_ceil_div_spec (a b : Z) :
  0 < b -> (Math_ceil_div a b - 1) * b < a <= Math_ceil_div a b * b.
Proof.
  intros Hb. unfold Math_ceil_div.
  pose proof (Z.div_mod (- a) b ltac:(lia)) as Hdm.
  pose proof (Z.mod_pos_bound (- a) b Hb) as Hm.
  nia.
Qed.

Lemma Math_ceil_div_unique (a b n : Z) :
  0 < b -> (n - 1) * b < a <= n * b -> Math_ceil_div a b = n.
Proof.
  intros Hb Hn. pose proof (Math_ceil_div_spec a b Hb) as Hc. nia.
Qed.

(** ** The logs page *)
Section Pagination.
Import Types LogsPage.

Lemma step_page_ok (st : State) (e : event) : page_ok st -> page_ok (step st e).
Proof.
  intros [Hp Hs]. unfold page_ok.
  destruct e; simpl; try done.
  - unfold previous_disabled. destruct (page (pagination st) =? 1); simpl; [done|].
    split; [lia | done].
  - unfold next_disabled. destruct (totalPages st <=? page (pagination st)) eqn:E; simpl;
      [done|]. apply Z.leb_gt in E. split; [lia | done].
Qed.

Lemma run_page_ok (es : list event) (st : State) : page_ok st -> page_ok (run st es).
Proof.
  revert st. induction es as [|e es IH]; intros st H; simpl; [done|].
  apply IH. by apply step_page_ok.
Qed.

(** What the page's handlers do keep, for loads that report integer
    totals: whatever the user does and whatever the loads report, the
    current page is at least 1 (and the page size stays 50); a change of the
    filters or of the search query puts the page back to 1; Previous is
    disabled on page 1 and Next on or after the last page; a click on
    Previous gives a page between 1 and the current one, a click on Next a
    page from the current one up to the last page [ceil(total / size)] (or
    the current one when that is already beyond it); and the two handlers
    clamp on their own: Previous never computes less than 1, Next never more
    than [ceil(total / size)]. *)
Theorem page_never_below_one (es : list event) :
  let st := run initial es in
  let p := page (pagination st) in
  1 <= p
  /\ size (pagination st) = 50
  /\ (forall f, page (pagination (step st (FilterChange f))) = 1)
  /\ (forall q, page (pagination (step st (QueryChange q))) = 1)
  /\ previous_disabled st = bool_decide (p = 1)
  /\ next_disabled st = bool_decide (totalPages st <= p)
  /\ 1 <= page (pagination (step st ClickPrevious)) <= p
  /\ p <= page (pagination (step st ClickNext)) <= Z.max p (totalPages st)
  /\ (forall st', 1 <= page (pagination (previous_onClick st'))
                  /\ page (pagination (next_onClick st')) <= totalPages st').
Proof.
  cbv zeta.
  destruct (run_page_ok es initial) as [Hp Hs]; [by split|].
  split; [done|]. split; [done|]. split; [done|]. split; [done|].
  split.
  { unfold previous_disabled. case_bool_decide; lia. }
  split.
  { unfold next_disabled. case_bool_decide; lia. }
  split.
  { simpl. unfold previous_disabled.
    destruct (page (pagination (run initial es)) =? 1) eqn:E; simpl; lia. }
  split.
  { simpl. unfold next_disabled.
    destruct (totalPages (run initial es) <=? page (pagination (run initial es))) eqn:E;
      simpl; lia. }
  intros st'. simpl. lia.
Qed.

(** C9 fails on the page: the select of the backend changes the backend
    and leaves the page number alone, where a change of the filters or of
    the query puts it back to 1.  After two clicks on Next in a result of
    150 entries the user is on page 3; a switch of the backend reloads with
    that page, and when the load reports 10 entries the page is still 3
    while [ceil(10 / 50)] is 1.  Previous is enabled there, and a click on
    it gives page 2, above the last page as well. *)
Lemma page_above_last_after_smaller_load :
  let st := run initial [Loaded 150; ClickNext; ClickNext;
                         SelectBackend "sqlite"; Loaded 10] in
  page (pagination st) = 3
  /\ totalPages st = 1
  /\ ~ (1 <= page (pagination st) <= totalPages st)
  /\ previous_disabled st = false
  /\ page (pagination (step st ClickPrevious)) = 2
  /\ ~ (page (pagination (step st ClickPrevious)) <= totalPages (step st ClickPrevious)).
Proof.
  vm_compute. split; [reflexivity|]. split; [reflexivity|].
  split; [intros [_ H]; by apply H|]. split; [reflexivity|]. split; [reflexivity|].
  intros H. by apply H.
Qed.

End Pagination.

(** ** Ingestion gateway *)
Section Gateway.
Import Backend.
Variable digest : string -> string.
Variable parse_iso8601 : string -> option Z.
Variable batch_status : string.
Variable batch_message : nat -> nat -> string.

Local Abbreviation validate := (Backend.validate parse_iso8601).
Local Abbreviation valid_entry := (Backend.valid_entry parse_iso8601).
Local Abbreviation validate_batch := (Backend.validate_batch parse_iso8601).
Local Abbreviation ingestBatch :=
  (Backend.ingestBatch digest parse_iso8601 batch_status batch_message).

Lemma validate_batch_counts (pid : ProjectID) (now : Z) (ident : nat)
      (raws : list RawEntry) :
  let '(acc, bad, ident') := validate_batch pid now ident raws in
  (length acc + bad = length raws)%nat
  /\ length acc = length (List.filter (valid_entry now) raws)
  /\ List.map message acc = List.map raw_message (List.filter (valid_entry now) raws)
  /\ Forall (fun e => project e = pid) acc
  /\ ident' = (ident + length acc)%nat.
Proof.
  revert ident. induction raws as [|raw raws IH]; intros ident; simpl.
  - repeat split; [done | lia].
  - destruct (validate now raw) as [v|] eqn:Hv.
    + assert (Hvalid : valid_entry now raw = true)
        by (unfold Backend.valid_entry; by rewrite Hv).
      rewrite Hvalid. specialize (IH (S ident)).
      destruct (validate_batch pid now (S ident) raws) as [[acc bad] ident'].
      destruct IH as (H1 & H2 & H3 & H4 & H5). simpl.
      split; [lia|]. split; [lia|]. split; [by rewrite H3|].
      split; [by constructor | lia].
    + assert (Hvalid : valid_entry now raw = false)
        by (unfold Backend.valid_entry; by rewrite Hv).
      rewrite Hvalid. specialize (IH ident).
      destruct (validate_batch pid now ident raws) as [[acc bad] ident'].
      destruct IH as (H1 & H2 & H3 & H4 & H5). simpl.
      split; [lia|]. split; [lia|]. split; [done|]. split; [done | lia].
Qed.

Lemma publish_all_available (q : Queue) (ms : list Message) :
  available q = true ->
  publish_all q ms = Some (mkQueue true (messages q ++ ms)).
Proof.
  revert q. induction ms as [|m ms IH]; intros [av msgs] Hq; simpl in *; subst av.
  - by rewrite app_nil_r.
  - unfold publish. simpl. rewrite IH by done. simpl. by rewrite <- app_assoc.
Qed.

Lemma publish_all_unavailable (q : Queue) (ms : list Message) :
  available q = false -> publish_all q ms = if ms is [] then Some q else None.
Proof.
  intros Hq. destruct ms as [|m ms]; simpl; [done|].
  unfold publish. by rewrite Hq.
Qed.

(** C3: for every batch, whatever mix of valid and invalid entries it has,
    [ingestBatch] either answers [{status, message, queued, failed}] with
    [queued + failed] the length of the batch, [queued] the number of valid
    entries, and exactly the valid entries published in order under the
    authenticated project; or it fails as a whole, and then only because the
    credential was refused ([Unauthorized]) or because there was something to
    publish and the queue was unreachable ([ServiceUnavailable]), never
    because of an invalid entry, and nothing has changed. *)
Theorem ingestBatch_reports_both_counts (g : Gateway) (raws : list RawEntry)
        (credential : string) (backend : option BackendTag) :
  let valid := List.filter (valid_entry (clock g)) raws in
  match ingestBatch g raws credential backend with
  | (inr r, g') =>
      (queued r + failed r = length raws)%nat
      /\ queued r = length valid
      /\ br_status r = batch_status
      /\ br_message r = batch_message (queued r) (failed r)
      /\ exists new,
           messages (queue g') = messages (queue g) ++ new
           /\ List.map (fun m => message (entry m)) new = List.map raw_message valid
           /\ Forall (fun m => authenticateIngestion digest (registry g) credential
                               = inl (project (entry m))) new
  | (inl e, g') =>
      g' = g
      /\ ((e = Unauthorized
           /\ exists a, authenticateIngestion digest (registry g) credential = inr a)
          \/ (e = ServiceUnavailable /\ available (queue g) = false /\ valid <> []))
  end.
Proof.
  cbv zeta. unfold Backend.ingestBatch.
  destruct (authenticateIngestion digest (registry g) credential) as [pid|a] eqn:Ha.
  2:{ split; [done|]. left. split; [done|]. by exists a. }
  pose proof (validate_batch_counts pid (clock g) (next_id g) raws) as Hc.
  destruct (validate_batch pid (clock g) (next_id g) raws) as [[acc bad] ident'].
  destruct Hc as (H1 & H2 & H3 & H4 & H5).
  destruct (available (queue g)) eqn:Hq.
  - rewrite publish_all_available by done. simpl.
    split; [done|]. split; [done|]. split; [done|]. split; [done|].
    eexists. split; [reflexivity|]. split.
    + rewrite List.map_map. simpl. exact H3.
    + apply Forall_forall. intros m Hm. apply list_elem_of_In, List.in_map_iff in Hm.
      destruct Hm as (e & <- & He). simpl.
      rewrite Forall_forall in H4. f_equal. symmetry. apply H4.
      by apply list_elem_of_In.
  - rewrite publish_all_unavailable by done.
    destruct acc as [|e acc]; simpl.
    + split; [done|]. split; [done|]. split; [done|]. split; [done|].
      exists []. rewrite app_nil_r. split; [by destruct (queue g)|].
      split; [exact H3 | constructor].
    + split; [done|]. right. split; [done|]. split; [done|].
      intros Hnil. rewrite Hnil in H2. done.
Qed.

(** The batch of three with a bogus level in the second entry. *)
Example ingestBatch_three_one_bogus :
  Scenario.demo_ingest.1 = inr (mkBatchResponse "ok" "batch accepted" 2 1).
Proof. vm_compute. reflexivity. Qed.

End Gateway.

(** ** Query service *)
Section Query.
Import Backend.

Lemma insert_entry_perm (e : LogEntry) (l : list LogEntry) :
  insert_entry e l ≡ₚ e :: l.
Proof.
  induction l as [|x l IH]; simpl; [done|].
  destruct (before e x); [done|].
  rewrite IH. apply perm_swap.
Qed.

Lemma order_entries_perm (l : list LogEntry) : order_entries l ≡ₚ l.
Proof.
  induction l as [|e l IH]; simpl; [done|].
  rewrite insert_entry_perm. by apply perm_skip.
Qed.

Lemma hits_length (pid : ProjectID) (f : Filter) (store : list LogEntry) :
  length (hits pid f store)
  = length (List.filter (fun e => in_project pid e && matches f e) store).
Proof. unfold hits. by rewrite order_entries_perm. Qed.

Lemma hits_project (pid : ProjectID) (f : Filter) (store : list LogEntry) (e : LogEntry) :
  In e (hits pid f store) -> In e store /\ project e = pid /\ matches f e = true.
Proof.
  unfold hits. intros H. apply list_elem_of_In in H.
  rewrite order_entries_perm in H. apply list_elem_of_In, List.filter_In in H.
  destruct H as [Hin Hb]. apply andb_true_iff in Hb as [Hp Hm].
  split; [done|]. split; [|done]. by apply String.eqb_eq.
Qed.

Lemma hits_own_entries (pid : ProjectID) (f : Filter) (store : list LogEntry) :
  hits pid f (List.filter (in_project pid) store) = hits pid f store.
Proof.
  unfold hits. f_equal.
  induction store as [|e store IH]; simpl; [done|].
  destruct (in_project pid e) eqn:E; simpl; rewrite ?E; simpl; by rewrite IH.
Qed.

Lemma page_slice_in (n m : nat) (l : list LogEntry) (e : LogEntry) :
  In e (take n (drop m l)) -> In e l.
Proof.
  intros H. apply list_elem_of_In in H. apply list_elem_of_In.
  eapply sublist_subseteq; [|exact H].
  etrans; [apply sublist_take | apply sublist_drop].
Qed.

(** C1: an entry that belongs to project A is in no page that [query]
    returns for another project B, whatever the search, level, service,
    time range, page and size of the filter; and what [query] returns for B
    is what it returns on B's own entries alone, so the entries of other
    projects change neither the page nor the total. *)
Theorem query_scoped_to_project (store : list LogEntry) (A B : ProjectID)
        (f : Filter) (e : LogEntry) (r : Page) :
  In e store -> project e = A -> A <> B ->
  query B f store = inr r ->
  ~ In e (entries r)
  /\ query B f (List.filter (in_project B) store) = inr r.
Proof.
  intros Hin HA Hne Hq. split.
  - unfold query in Hq. destruct ((f_size f <=? 0) || (f_page f <? 1)); [done|].
    injection Hq as <-. simpl. intros He.
    apply page_slice_in, hits_project in He as (_ & HB & _). congruence.
  - rewrite <- Hq. unfold query. by rewrite hits_own_entries.
Qed.

Lemma query_scoped_to_project_witness :
  let e := mkLogEntry 1 105 ERROR "auth" "disk full" [] "p2" in
  let r := mkPage [mkLogEntry 2 110 INFO "web" "ready" [] "p1";
                   mkLogEntry 3 110 INFO "web" "ready again" [] "p1"] 3 1 2 2 in
  (In e Scenario.demo_store /\ project e = "p2" /\ "p2" <> "p1"
   /\ query "p1" (Scenario.any_filter 1 2) Scenario.demo_store = inr r)
  /\ ~ In e (entries r)
  /\ query "p1" (Scenario.any_filter 1 2)
           (List.filter (in_project "p1") Scenario.demo_store) = inr r.
Proof.
  cbv zeta.
  assert (Hin : In (mkLogEntry 1 105 ERROR "auth" "disk full" [] "p2")
                   Scenario.demo_store) by (simpl; auto).
  assert (Hq : query "p1" (Scenario.any_filter 1 2) Scenario.demo_store
               = inr (mkPage [mkLogEntry 2 110 INFO "web" "ready" [] "p1";
                              mkLogEntry 3 110 INFO "web" "ready again" [] "p1"]
                             3 1 2 2)) by (vm_compute; reflexivity).
  split; [split; [exact Hin | split; [reflexivity | split; [discriminate | exact Hq]]]|].
  apply (query_scoped_to_project Scenario.demo_store "p2" "p1"
           (Scenario.any_filter 1 2) _ _ Hin eq_refl ltac:(discriminate) Hq).
Defined.

(** C4: [query] rejects a size of zero or less with [InvalidArgument];
    for a positive size (and a page from 1 on) it answers with the number
    of entries of the project that match the filter as [total], with
    [totalPages] the ceiling of [total / size], that is the one number [n]
    with [(n - 1) * size < total <= n * size], with at most [size] entries,
    and with no entries at all, under the same total, when the page asked
    for is beyond [totalPages].  The page count of the logs page is the
    same ceiling of its own total and size. *)
Theorem pagination_contract (pid : ProjectID) (f : Filter) (store : list LogEntry) :
  (f_size f <= 0 -> query pid f store = inl InvalidArgument)
  /\ (0 < f_size f -> 1 <= f_page f ->
      exists r,
        query pid f store = inr r
        /\ total r
           = length (List.filter (fun e => in_project pid e && matches f e) store)
        /\ totalPages r = Math_ceil_div (Z.of_nat (total r)) (f_size f)
        /\ (totalPages r - 1) * f_size f < Z.of_nat (total r) <= totalPages r * f_size f
        /\ (length (entries r) <= Z.to_nat (f_size f))%nat
        /\ (totalPages r < f_page f -> entries r = []))
  /\ (forall st : LogsPage.State,
        0 < Types.size (LogsPage.pagination st) ->
        (LogsPage.totalPages st - 1) * Types.size (LogsPage.pagination st)
          < Types.total (LogsPage.pagination st)
          <= LogsPage.totalPages st * Types.size (LogsPage.pagination st)).
Proof.
  split; [|split].
  - intros Hs. unfold query.
    by rewrite (proj2 (Z.leb_le (f_size f) 0) Hs).
  - intros Hs Hp. unfold query.
    rewrite (proj2 (Z.leb_gt (f_size f) 0) Hs), (proj2 (Z.ltb_ge (f_page f) 1) Hp).
    simpl. eexists. split; [reflexivity|]. simpl.
    pose proof (Math_ceil_div_spec (Z.of_nat (length (hits pid f store))) (f_size f) Hs)
      as Hc.
    split; [apply hits_length|]. split; [done|]. split; [done|].
    split; [rewrite length_take; lia|].
    intros Hbeyond. rewrite drop_ge; [by rewrite take_nil | nia].
  - intros st Hs. by apply Math_ceil_div_spec.
Qed.

Lemma pagination_contract_witness :
  query "p1" (Scenario.any_filter 1 0) Scenario.demo_store = inl InvalidArgument
  /\ (exists r,
        query "p1" (Scenario.any_filter 3 2) Scenario.demo_store = inr r
        /\ total r = 3%nat /\ totalPages r = 2 /\ entries r = [])
  /\ LogsPage.totalPages
       (LogsPage.run LogsPage.initial [LogsPage.Loaded 101]) = 3.
Proof.
  destruct (pagination_contract "p1" (Scenario.any_filter 1 0) Scenario.demo_store)
    as (Hreject & _ & _).
  destruct (pagination_contract "p1" (Scenario.any_filter 3 2) Scenario.demo_store)
    as (_ & Hpage & Hclient).
  split; [apply Hreject; simpl; lia|]. split.
  - destruct Hpage as (r & Hq & Ht & Htp & _ & _ & Hempty); [simpl; lia | simpl; lia |].
    exists r. split; [exact Hq|].
    assert (Ht' : total r = 3%nat) by (rewrite Ht; vm_compute; reflexivity).
    assert (Htp' : totalPages r = 2) by (rewrite Htp, Ht'; vm_compute; reflexivity).
    split; [exact Ht'|]. split; [exact Htp'|].
    apply Hempty. rewrite Htp'. simpl. lia.
  - apply Math_ceil_div_unique; [vm_compute; reflexivity|].
    apply (Hclient (LogsPage.run LogsPage.initial [LogsPage.Loaded 101])).
    vm_compute. reflexivity.
Defined.

End Query.

(** ** The account service: what it keeps and what it leaves alone *)
Section AccountState.
Import Types AuthService Contract Shapes.

(** Unfold a run of the monad down to the answers of the server. *)
Local Ltac unfold_run :=
  cbv beta delta
    [registerUser createProject getProjects getProjectApiKey clearCredentials
     saveCredentials getOAuthToken isAuthenticated getCredentials push bind
     fetch throw_http_error try_catch json get_prop get_state get_storage
     set_state throw ret] in *.

Local Ltac split_run :=
  repeat first
    [ progress simpl in *
    | match goal with
      | |- context [server ?w ?h ?r] => destruct (server w h r) as [|?resp] eqn:?
      | |- context [ok ?r] => destruct (ok r) eqn:?
      | |- context [body ?r] => destruct (body r) as [?d|] eqn:?
      | |- context [read_prop ?d ?k] => destruct (read_prop d k) as [?v|?e] eqn:?
      | |- context [credentials ?w] => destruct (credentials w) as [?c|] eqn:?
      | |- context [projects ?c] => destruct (projects c) eqn:?
      | |- context [truthy ?v] => destruct (truthy v) eqn:?
      end ].

Lemma registerUser_step (self : t) (w : World) :
  state_step w (registerUser self w).2.
Proof.
  unfold_run. split_run; first [ by apply step_same | by eapply step_saved ].
Qed.

Lemma createProject_step (self : t) (d : CreateProjectRequest) (w : World) :
  state_step w (createProject self d w).2.
Proof.
  unfold_run. split_run; first [ by apply step_same | by eapply step_saved ].
Qed.

Lemma getProjects_step (self : t) (token : string) (w : World) :
  state_step w (getProjects self token w).2.
Proof.
  unfold_run. split_run; first [ by apply step_same | by eapply step_saved ].
Qed.

Lemma getProjectApiKey_step (self : t) (projectId : string) (w : World) :
  state_step w (getProjectApiKey self projectId w).2.
Proof.
  unfold_run. split_run; by apply step_same.
Qed.

Lemma clearCredentials_step (w : World) : state_step w (clearCredentials w).2.
Proof. by apply step_cleared. Qed.

Lemma state_step_synced (w w' : World) : state_step w w' -> synced w -> synced w'.
Proof.
  unfold synced. intros [(Hc & Hl & _) | c Hc Hl _ | Hc Hl _] Hs.
  - by rewrite Hc, Hl.
  - by rewrite Hc, Hl, lookup_insert_eq.
  - by rewrite Hc, Hl, lookup_delete_eq.
Qed.

Lemma state_step_other_keys (w w' : World) (k : string) :
  state_step w w' -> k <> STORAGE_KEY -> localStorage w' !! k = localStorage w !! k.
Proof.
  intros [(_ & Hl & _) | c _ Hl _ | _ Hl _] Hk; rewrite Hl.
  - done.
  - by rewrite lookup_insert_ne.
  - by rewrite lookup_delete_ne.
Qed.

Lemma auth_call_step (self : t) (w : World) (c : auth_call) :
  state_step w (auth_call_run self w c).
Proof.
  destruct c; simpl.
  - apply registerUser_step.
  - apply createProject_step.
  - apply getProjects_step.
  - apply getProjectApiKey_step.
  - apply clearCredentials_step.
Qed.

(** X1: in every session of account calls (register, create a project, list
    the projects, view a key, log out, in any order and whether they succeed
    or fail) the document under the storage key stays the one of the
    credentials in memory, and is absent when there are none. *)
Theorem auth_session_keeps_storage_in_sync (self : t) (cs : list auth_call) (w : World) :
  synced w -> synced (auth_session self w cs).
Proof.
  unfold auth_session. revert w.
  induction cs as [|c cs IH]; intros w Hs; simpl; [done|].
  apply IH. eapply state_step_synced; [apply auth_call_step | done].
Qed.

Lemma auth_session_keeps_storage_in_sync_witness :
  synced Scenario.w0
  /\ synced (auth_session Scenario.auth Scenario.w0
               [Register; Create Scenario.new_project; ViewApiKey "p1";
                ListProjects "tok-u1"; Logout; Register]).
Proof.
  assert (H : synced Scenario.w0) by reflexivity.
  split; [exact H|].
  exact (auth_session_keeps_storage_in_sync Scenario.auth _ Scenario.w0 H).
Defined.

(** X2: no account call reads or writes another entry of [localStorage]:
    after any session every key other than the storage key holds what it
    held before. *)
Theorem auth_session_touches_only_its_key (self : t) (cs : list auth_call) (w : World)
        (k : string) :
  k <> STORAGE_KEY ->
  localStorage (auth_session self w cs) !! k = localStorage w !! k.
Proof.
  intros Hk. unfold auth_session. revert w.
  induction cs as [|c cs IH]; intros w; simpl; [done|].
  rewrite IH. by apply state_step_other_keys; [apply auth_call_step|].
Qed.

Lemma auth_session_touches_only_its_key_witness :
  "theme" <> STORAGE_KEY
  /\ localStorage (auth_session Scenario.auth
                     (mkWorld Scenario.demo_server [] {["theme" := VStr "dark"]} None)
                     [Register; Create Scenario.new_project; Logout]) !! "theme"
     = Some (VStr "dark").
Proof.
  assert (H : "theme" <> STORAGE_KEY) by discriminate.
  split; [exact H|].
  rewrite (auth_session_touches_only_its_key Scenario.auth _ _ "theme" H).
  reflexivity.
Defined.

Lemma registerUser_sent (self : t) (w : World) :
  sent (registerUser self w).2 = sent w ++ [join_request self].
Proof. unfold_run. split_run; done. Qed.

Lemma registerUser_throw_same (self : t) (w : World) (e : exn) :
  (registerUser self w).1 = Throw e -> same_state w (registerUser self w).2.
Proof. unfold_run. split_run; done. Qed.

Lemma registerUser_ok_state (self : t) (w : World) (u : User) :
  (registerUser self w).1 = Ok u ->
  credentials (registerUser self w).2
  = Some (mkStoredCredentials u (api_key u) (VArr [])).
Proof. unfold_run. split_run; try done; by intros [= <-]. Qed.

(** X3: [registerUser] sends exactly one request, the bodiless
    [POST /join], whatever the outcome; and when it throws, the stored
    credentials and [localStorage] are what they were. *)
Theorem registerUser_failure_keeps_state (self : t) (w : World) :
  sent (registerUser self w).2 = sent w ++ [join_request self]
  /\ (forall e, (registerUser self w).1 = Throw e ->
                same_state w (registerUser self w).2).
Proof.
  split; [apply registerUser_sent | intros e H; by eapply registerUser_throw_same].
Qed.

Lemma registerUser_failure_keeps_state_witness :
  (registerUser Scenario.elsewhere Scenario.w_created).1
  = Throw (Error "HTTP 404: Not Found")
  /\ sent (registerUser Scenario.elsewhere Scenario.w_created).2
     = sent Scenario.w_created ++ [join_request Scenario.elsewhere]
  /\ same_state Scenario.w_created (registerUser Scenario.elsewhere Scenario.w_created).2.
Proof.
  assert (H : (registerUser Scenario.elsewhere Scenario.w_created).1
              = Throw (Error "HTTP 404: Not Found")) by (vm_compute; reflexivity).
  destruct (registerUser_failure_keeps_state Scenario.elsewhere Scenario.w_created)
    as [Hsent Hsame].
  split; [exact H|]. split; [exact Hsent | exact (Hsame _ H)].
Defined.

Lemma getProjects_run (self : t) (token : string) (w : World) :
  let run := getProjects self token w in
  sent run.2 = sent w ++ [projects_request self token]
  /\ match run.1 with
     | Ok ps =>
         field_or_error "projects" (server w (sent w) (projects_request self token))
         = Ok ps
         /\ credentials run.2
            = (fun c => mkStoredCredentials (user c) (oauth_token c) ps)
                <$> credentials w
     | Throw _ => same_state w run.2
     end.
Proof.
  cbv zeta. unfold field_or_error, body_or_error, projects_request.
  unfold_run. split_run; try done.
  all: try (split; [done|]); try done.
  all: destruct d; try done.
Qed.

Lemma createProject_sent (self : t) (d : CreateProjectRequest) (w : World) :
  sent (createProject self d w).2 = sent w ++ [create_request self d].
Proof. unfold_run. split_run; done. Qed.

(** X5: [createProject] sends its one [POST /projects] in every case.  A
    project created while no credentials are stored is returned but kept
    nowhere; a call that throws leaves the stored state as it was; and when
    the stored project list is not an array the call cannot succeed, although
    the request has gone out. *)
Theorem createProject_edges (self : t) (d : CreateProjectRequest) (w : World) :
  let run := createProject self d w in
  sent run.2 = sent w ++ [create_request self d]
  /\ (credentials w = None -> same_state w run.2)
  /\ (forall e, run.1 = Throw e -> same_state w run.2)
  /\ (forall c, credentials w = Some c ->
                (forall items, projects c <> VArr items) ->
                exists e, run.1 = Throw e).
Proof.
  cbv zeta. split; [apply createProject_sent|]. split; [|split].
  - intros Hc. unfold_run. rewrite Hc. split_run; done.
  - intros e. unfold_run. split_run; done.
  - intros c Hc Hp. unfold_run. rewrite Hc. split_run; try by eexists.
    by destruct (Hp items).
Qed.

Lemma createProject_edges_witness :
  same_state Scenario.w0
    (createProject Scenario.auth Scenario.new_project Scenario.w0).2
  /\ (createProject Scenario.auth Scenario.new_project Scenario.w0).1
     = Ok (mkProject (VStr "p1") (VStr "web") VNull (VStr Scenario.demo_key)
                     (VStr "u1") (VStr "2025-01-01T00:00:00Z"))
  /\ (exists e, (createProject Scenario.auth Scenario.new_project
                  Scenario.w_odd_projects).1 = Throw e)
  /\ same_state Scenario.w_odd_projects
       (createProject Scenario.auth Scenario.new_project Scenario.w_odd_projects).2.
Proof.
  destruct (createProject_edges Scenario.auth Scenario.new_project Scenario.w0)
    as (_ & Hnone & _ & _).
  destruct (createProject_edges Scenario.auth Scenario.new_project
              Scenario.w_odd_projects) as (_ & _ & Hthrow & Hodd).
  split; [apply Hnone; reflexivity|].
  split; [vm_compute; reflexivity|].
  destruct (Hodd _ eq_refl) as [e He]; [intros items; discriminate|].
  split; [by exists e | by apply (Hthrow e)].
Defined.

Lemma getOAuthToken_null (w : World) :
  (getOAuthToken w).1 = Ok VNull
  <-> truthy (optional_oauth_token (credentials w)) = false.
Proof.
  unfold getOAuthToken, bind, get_state, ret, or_else. simpl.
  destruct (truthy (optional_oauth_token (credentials w))) eqn:E; [|done].
  split; [|done]. intros [= H]. rewrite H in E. done.
Qed.

(** X6: [getProjectApiKey] refuses with [Not authenticated], sending
    nothing and changing nothing, exactly when [getOAuthToken] gives [null]:
    when there are no credentials or their token is empty or missing. *)
Theorem api_key_refused_iff_token_null (self : t) (projectId : string) (w : World) :
  (getOAuthToken w).1 = Ok VNull
  <-> getProjectApiKey self projectId w = (Throw (Error "Not authenticated"), w).
Proof.
  rewrite getOAuthToken_null.
  pose proof (getProjectApiKey_run self projectId w) as H. cbv zeta in H.
  destruct (truthy (optional_oauth_token (credentials w))) eqn:E.
  - split; [done|]. intros Heq. destruct H as (Hs & _).
    rewrite Heq in Hs. simpl in Hs.
    apply (f_equal length) in Hs. rewrite length_app in Hs. simpl in Hs. lia.
  - by split.
Qed.


(** X4: [getProjects] sends one [GET /projects] carrying the token it was
    given.  When it succeeds it returns the [projects] field of the answer
    and, if there are stored credentials, replaces their project list by it
    (user and token stay); with no stored credentials nothing is stored.
    When it throws, the stored state is what it was. *)
Theorem getProjects_replaces_stored_list (self : t) (token : string) (w : World) :
  let run := getProjects self token w in
  sent run.2 = sent w ++ [projects_request self token]
  /\ match run.1 with
     | Ok ps =>
         field_or_error "projects" (server w (sent w) (projects_request self token))
         = Ok ps
         /\ credentials run.2
            = (fun c => mkStoredCredentials (user c) (oauth_token c) ps)
                <$> credentials w
     | Throw _ => same_state w run.2
     end.
Proof. apply getProjects_run. Qed.

End AccountState.

(** ** Batch submission and the shared error block *)
Section Submission.
Import ApiService Contract Shapes.

Lemma stringify_logData (d : LogData) :
  obj_keys (stringify (logData_value d))
  = ["message"; "level"; "service"]
    ++ opt_key "timestamp" (bool_decide (is_Some (timestamp d)))
    ++ opt_key "metadata" (bool_decide (is_Some (metadata d))).
Proof. by destruct d as [m l s [ts|] [md|]]. Qed.

Lemma stringify_logs (logs : list LogData) :
  stringify (VArr (List.map logData_value logs))
  = VArr (List.map (fun d => stringify (logData_value d)) logs).
Proof.
  simpl. f_equal. rewrite List.map_map. by apply List.map_ext.
Qed.

(** X7: [ingestLogsBatch] sends one [POST /ingest/batch] whose only header
    is [Content-Type] (no [X-API-Key]) and whose body is the array, in the
    order and number of the logs given (empty for an empty batch), of the
    documents [ingestLog] would send one by one; in each a timestamp or
    metadata that is not given is left out, not sent as [null].  The parsed
    body of an ok answer is returned as it is. *)
Theorem ingestLogsBatch_request (self : t) (logs : list LogData) (w : World) :
  sent (ingestLogsBatch self logs w).2 = sent w ++ [batch_request self logs]
  /\ assoc "X-API-Key" (req_headers (batch_request self logs)) = None
  /\ req_body (batch_request self logs)
     = Some (VArr (omap (fun d => req_body (log_request self d)) logs))
  /\ (ingestLogsBatch self logs w).1
     = body_or_error (server w (sent w) (batch_request self logs))
  /\ Forall (fun d =>
        sent (ingestLog self d w).2 = sent w ++ [log_request self d]
        /\ obj_keys (stringify (logData_value d))
           = ["message"; "level"; "service"]
             ++ opt_key "timestamp" (bool_decide (is_Some (timestamp d)))
             ++ opt_key "metadata" (bool_decide (is_Some (metadata d)))) logs.
Proof.
  unfold ingestLogsBatch, batch_request. rewrite post_sent, post_result, stringify_logs.
  split; [done|]. split; [done|]. split.
  { simpl. do 2 f_equal. }
  split; [done|].
  apply Forall_forall. intros d _. split; [|apply stringify_logData].
  unfold ingestLog. by rewrite post_sent.
Qed.

(** X8: when an answer is not ok and its body is an object with a truthy
    [detail], the error thrown carries [String(detail)] and nothing of the
    status: two such answers with the same detail, for instance a 401 and a
    422, give the same error. *)
Theorem error_detail_hides_status (A : Type) (r1 r2 : Response)
        (fields1 fields2 : obj) (v : value) (w : World) :
  body r1 = Some (VObj fields1) -> body r2 = Some (VObj fields2) ->
  assoc "detail" fields1 = Some v -> assoc "detail" fields2 = Some v ->
  truthy v = true ->
  @throw_http_error A r1 w = (Throw (Error (to_string v)), w)
  /\ @throw_http_error A r1 w = @throw_http_error A r2 w.
Proof.
  intros H1 H2 Hd1 Hd2 Hv.
  unfold throw_http_error, bind, try_catch, json, get_prop, throw, ret.
  rewrite H1, H2. simpl. rewrite Hd1, Hd2. simpl. unfold or_else. by rewrite Hv.
Qed.

Lemma error_detail_hides_status_witness :
  let r1 := mkResponse 401 "Unauthorized" (Some (VObj [("detail", VStr "denied")])) in
  let r2 := mkResponse 422 "Unprocessable Entity"
              (Some (VObj [("detail", VStr "denied"); ("code", VNum 7)])) in
  @throw_http_error value r1 Scenario.w0 = (Throw (Error "denied"), Scenario.w0)
  /\ @throw_http_error value r1 Scenario.w0 = @throw_http_error value r2 Scenario.w0.
Proof.
  cbv zeta.
  apply (error_detail_hides_status value _ _ [("detail", VStr "denied")]
           [("detail", VStr "denied"); ("code", VNum 7)] (VStr "denied"));
    reflexivity.
Defined.

End Submission.

(** ** Loading and showing logs *)
Section Loading.
Import Types Contract Shapes.






(** X10: what the footer shows.  With a positive page size, a page from 1
    on and a total that is not negative: on a page up to the last one the
    range shown starts at 1 or above, ends at the total or below, is not
    empty and has at most [size] entries; on a page beyond the last one (so
    on page 1 of an empty result) the range shown ends before it starts. *)
Theorem showing_range (st : LogsPage.State) :
  0 < size (LogsPage.pagination st) ->
  1 <= page (LogsPage.pagination st) ->
  0 <= total (LogsPage.pagination st) ->
  (page (LogsPage.pagination st) <= LogsPage.totalPages st ->
   1 <= LogsScreen.showing_from st <= LogsScreen.showing_to st
   /\ LogsScreen.showing_to st <= total (LogsPage.pagination st)
   /\ LogsScreen.showing_to st - LogsScreen.showing_from st
      < size (LogsPage.pagination st))
  /\ (LogsPage.totalPages st < page (LogsPage.pagination st) ->
      LogsScreen.showing_to st < LogsScreen.showing_from st).
Proof.
  intros Hs Hp Ht.
  pose proof (Math_ceil_div_spec (total (LogsPage.pagination st))
                (size (LogsPage.pagination st)) Hs) as Hc.
  unfold LogsScreen.showing_from, LogsScreen.showing_to, LogsPage.totalPages in *.
  split; intros H; nia.
Qed.

Lemma showing_range_witness :
  let st := LogsPage.run LogsPage.initial [LogsPage.Loaded 120; LogsPage.ClickNext;
                                           LogsPage.ClickNext] in
  (LogsScreen.showing_from st = 101 /\ LogsScreen.showing_to st = 120)
  /\ (1 <= LogsScreen.showing_from st <= LogsScreen.showing_to st
      /\ LogsScreen.showing_to st <= 120
      /\ LogsScreen.showing_to st - LogsScreen.showing_from st < 50)
  /\ LogsScreen.showing_to LogsPage.initial < LogsScreen.showing_from LogsPage.initial.
Proof.
  cbv zeta. split; [by vm_compute|]. split.
  - apply (showing_range (LogsPage.run LogsPage.initial
             [LogsPage.Loaded 120; LogsPage.ClickNext; LogsPage.ClickNext]));
      vm_compute; congruence.
  - apply (showing_range LogsPage.initial); vm_compute; congruence.
Defined.

(** X11: after Clear Filters the next load asks for page 1 with no search,
    level, service or date parameter (page, size, backend and project only),
    and the Clear button is gone. *)
Theorem clear_filters_request (st : LogsPage.State) (project_id : option string) :
  let st' := LogsPage.handleFilterChange FiltersComponent.clearFilters st in
  ApiService.build_query (ApiService.apiParams (LogsPage.loadData_params st' project_id))
  = [("page", "1"); ("size", pretty (size (LogsPage.pagination st)))]
    ++ str_entry "backend" (nonempty (Some (LogsPage.storageBackend st)))
    ++ str_entry "project_id" (nonempty project_id)
  /\ FiltersComponent.clear_visible (LogsPage.filters st') = false.
Proof. cbv zeta. by rewrite build_query_apiParams. Qed.

(** X12: the Clear button is hidden exactly when the query and the start
    date are empty and level and service are ALL; the end date is not looked
    at.  So with only an end date set, the button is hidden while the
    requests carry [to_ts]. *)
Theorem clear_button_ignores_endDate (f : LogFilters) (st : LogsPage.State)
        (project_id : option string) (d : string) :
  (FiltersComponent.clear_visible f = false
   <-> query f = "" /\ level f = "ALL" /\ service f = "ALL" /\ startDate f = "")
  /\ (d <> "" ->
      let st' := LogsPage.handleFilterChange
                   (FiltersComponent.handleChange FiltersComponent.clearFilters
                      FiltersComponent.KendDate d) st in
      FiltersComponent.clear_visible (LogsPage.filters st') = false
      /\ assoc "to_ts" (ApiService.build_query
                          (ApiService.apiParams
                             (LogsPage.loadData_params st' project_id))) = Some d).
Proof.
  split.
  - unfold FiltersComponent.clear_visible. simpl.
    destruct (String.eqb_spec (query f) ""), (String.eqb_spec (level f) "ALL"),
      (String.eqb_spec (service f) "ALL"), (String.eqb_spec (startDate f) "");
      simpl; split; try done; intros (? & ? & ? & ?); done.
  - intros Hd. cbv zeta. split; [done|]. rewrite build_query_apiParams.
    unfold logs_query. rewrite !assoc_app, !assoc_str_entry. simpl.
    destruct (String.eqb_spec d ""); [done|]. simpl.
    by destruct (String.eqb (LogsPage.storageBackend st) ""), project_id as [[|]|].
Qed.

Lemma clear_button_ignores_endDate_witness :
  let st' := LogsPage.handleFilterChange
               (FiltersComponent.handleChange FiltersComponent.clearFilters
                  FiltersComponent.KendDate "2025-01-31") LogsPage.initial in
  "2025-01-31" <> ""
  /\ FiltersComponent.clear_visible (LogsPage.filters st') = false
  /\ assoc "to_ts" (ApiService.build_query
                      (ApiService.apiParams (LogsPage.loadData_params st' None)))
     = Some "2025-01-31".
Proof.
  cbv zeta. assert (H : "2025-01-31" <> "") by discriminate.
  split; [exact H|].
  exact (proj2 (clear_button_ignores_endDate FiltersComponent.clearFilters
                  LogsPage.initial None "2025-01-31") H).
Defined.

End Loading.

(** ** The date picker *)
Section DatePicker.
Import FiltersComponent.

Lemma omap_nonzero_days (l : list Z) :
  Forall (fun n => n <> 0) l ->
  omap (fun d : option Z => match d with
                            | Some n => if n =? 0 then None else Some n
                            | None => None
                            end) (Some <$> l) = l.
Proof.
  induction 1 as [|n l Hn _ IH]; simpl; [done|].
  destruct (Z.eqb_spec n 0); [done|]. f_equal. exact IH.
Qed.

Lemma omap_leading_nulls (n : nat) :
  omap (fun d : option Z => match d with
                            | Some n => if n =? 0 then None else Some n
                            | None => None
                            end) (replicate n None) = [].
Proof. induction n as [|n IH]; simpl; [done | exact IH]. Qed.

(** X13: the grid [getDaysInMonth] builds, for a calendar that gives a
    first weekday [dow >= 0] and a number of days [dim >= 0]: it has
    [dow + dim] cells; the first [dow] are empty; the cell at position
    [dow + d - 1] holds day [d], for each day from 1 to [dim]; and the
    buttons drawn are the days 1 to [dim], each once and in order. *)
Theorem getDaysInMonth_grid (daysInMonth startingDayOfWeek : Z -> Z -> Z)
        (date : Z * Z) :
  let dow := startingDayOfWeek date.1 date.2 in
  let dim := daysInMonth date.1 date.2 in
  let days := getDaysInMonth daysInMonth startingDayOfWeek date in
  0 <= dow -> 0 <= dim ->
  Z.of_nat (length days) = dow + dim
  /\ (forall i, 0 <= i < dow -> days !! Z.to_nat i = Some None)
  /\ (forall d, 1 <= d <= dim -> days !! Z.to_nat (dow + d - 1) = Some (Some d))
  /\ day_buttons daysInMonth startingDayOfWeek date = seqZ 1 dim.
Proof.
  cbv zeta. intros Hdow Hdim. unfold day_buttons, getDaysInMonth.
  split; [|split; [|split]].
  - rewrite length_app, length_replicate, length_fmap, length_seqZ. lia.
  - intros i Hi. rewrite lookup_app_l by (rewrite length_replicate; lia).
    apply lookup_replicate_2. lia.
  - intros d Hd. rewrite lookup_app_r by (rewrite length_replicate; lia).
    rewrite length_replicate, list_lookup_fmap.
    replace (Z.to_nat (startingDayOfWeek date.1 date.2 + d - 1)
             - Z.to_nat (startingDayOfWeek date.1 date.2))%nat
      with (Z.to_nat (d - 1)) by lia.
    rewrite lookup_seqZ_lt by lia. simpl. do 2 f_equal. lia.
  - rewrite omap_app, omap_leading_nulls. simpl. apply omap_nonzero_days.
    apply Forall_forall. intros n Hn. apply elem_of_seqZ in Hn. lia.
Qed.

Lemma getDaysInMonth_grid_witness :
  (* a month of 30 days that starts on a Wednesday *)
  let days := getDaysInMonth (fun _ _ => 30) (fun _ _ => 3) (2025, 3) in
  (0 <= 3 /\ 0 <= 30)
  /\ Z.of_nat (length days) = 3 + 30
  /\ (forall i, 0 <= i < 3 -> days !! Z.to_nat i = Some None)
  /\ (forall d, 1 <= d <= 30 -> days !! Z.to_nat (3 + d - 1) = Some (Some d))
  /\ day_buttons (fun _ _ => 30) (fun _ _ => 3) (2025, 3) = seqZ 1 30.
Proof.
  cbv zeta. assert (H3 : 0 <= 3) by lia. assert (H30 : 0 <= 30) by lia.
  split; [by split|].
  exact (getDaysInMonth_grid (fun _ _ => 30) (fun _ _ => 3) (2025, 3) H3 H30).
Defined.

Lemma padded_days_differ :
  forallb (fun d => forallb (fun d' =>
             implb (String.eqb (padStart2 (pretty d)) (padStart2 (pretty d')))
                   (d =? d')) (seqZ 1 31)) (seqZ 1 31) = true.
Proof. vm_compute. reflexivity. Qed.

(** X14: after a day of the month on display was picked, the one cell drawn
    as selected, among the days 1 to 31, is that day. *)
Theorem selected_is_the_picked_day (year month d d' : Z) :
  1 <= d <= 31 -> 1 <= d' <= 31 ->
  selected (date_text year month d) (year, month) d' = true <-> d' = d.
Proof.
  intros Hd Hd'. unfold selected. simpl. split; [|intros ->; apply String.eqb_refl].
  intros H. apply String.eqb_eq in H. unfold date_text in H.
  do 4 apply String.app_inj in H.
  pose proof padded_days_differ as Hall.
  rewrite List.forallb_forall in Hall.
  specialize (Hall d). rewrite List.forallb_forall in Hall.
  assert (Hin : forall k, 1 <= k <= 31 -> In k (seqZ 1 31)).
  { intros k Hk. apply list_elem_of_In, elem_of_seqZ. lia. }
  specialize (Hall (Hin d Hd) d' (Hin d' Hd')).
  rewrite H, String.eqb_refl in Hall. simpl in Hall. symmetry. by apply Z.eqb_eq.
Qed.

Lemma selected_is_the_picked_day_witness :
  (1 <= 7 <= 31 /\ 1 <= 17 <= 31)
  /\ (selected (date_text 2025 0 7) (2025, 0) 17 = true <-> 17 = 7).
Proof.
  assert (H7 : 1 <= 7 <= 31) by lia. assert (H17 : 1 <= 17 <= 31) by lia.
  split; [by split|].
  exact (selected_is_the_picked_day 2025 0 7 17 H7 H17).
Defined.

(** X15: stepping the month on display: from a month of a year after 100,
    Previous and Next each give a month from 0 to 11, Previous from January
    gives December of the year before and Next from December gives January
    of the year after, and each undoes the other. *)
Theorem month_steps (year month : Z) :
  100 < year -> 0 <= month <= 11 ->
  handlePrevMonth (year, month)
  = (if month =? 0 then (year - 1, 11) else (year, month - 1))
  /\ handleNextMonth (year, month)
     = (if month =? 11 then (year + 1, 0) else (year, month + 1))
  /\ handleNextMonth (handlePrevMonth (year, month)) = (year, month)
  /\ handlePrevMonth (handleNextMonth (year, month)) = (year, month).
Proof.
  intros Hy Hm.
  assert (Hnew : forall y m, 99 < y -> new_Date y m = (y + m / 12, m mod 12)).
  { intros y m Hy'. unfold new_Date.
    destruct (Z.leb_spec y 99); [lia|]. by rewrite andb_false_r. }
  assert (Hprev : handlePrevMonth (year, month)
                  = (if month =? 0 then (year - 1, 11) else (year, month - 1))).
  { unfold handlePrevMonth. simpl. rewrite Hnew by lia.
    destruct (Z.eqb_spec month 0) as [->|]; [done|]. f_equal.
    - rewrite Z.div_small by lia. lia.
    - apply Z.mod_small. lia. }
  assert (Hnext : handleNextMonth (year, month)
                  = (if month =? 11 then (year + 1, 0) else (year, month + 1))).
  { unfold handleNextMonth. simpl. rewrite Hnew by lia.
    destruct (Z.eqb_spec month 11) as [->|]; [done|]. f_equal.
    - rewrite Z.div_small by lia. lia.
    - apply Z.mod_small. lia. }
  split; [done|]. split; [done|]. split.
  - rewrite Hprev. destruct (Z.eqb_spec month 0) as [->|].
    + unfold handleNextMonth. simpl. rewrite Hnew by lia.
      change ((11 + 1) `div` 12) with 1. change ((11 + 1) `mod` 12) with 0.
      f_equal. lia.
    + unfold handleNextMonth. simpl. rewrite Hnew by lia.
      replace (month - 1 + 1) with month by lia. f_equal.
      * rewrite Z.div_small by lia. lia.
      * apply Z.mod_small. lia.
  - rewrite Hnext. destruct (Z.eqb_spec month 11) as [->|].
    + unfold handlePrevMonth. simpl. rewrite Hnew by lia.
      change ((0 - 1) `div` 12) with (-1). change ((0 - 1) `mod` 12) with 11.
      f_equal. lia.
    + unfold handlePrevMonth. simpl. rewrite Hnew by lia.
      replace (month + 1 - 1) with month by lia. f_equal.
      * rewrite Z.div_small by lia. lia.
      * apply Z.mod_small. lia.
Qed.

Lemma month_steps_witness :
  (100 < 2025 /\ 0 <= 0 <= 11)
  /\ handlePrevMonth (2025, 0) = (2024, 11)
  /\ handleNextMonth (handlePrevMonth (2025, 0)) = (2025, 0).
Proof.
  assert (Hy : 100 < 2025) by lia. assert (Hm : 0 <= 0 <= 11) by lia.
  split; [by split|].
  destruct (month_steps 2025 0 Hy Hm) as (Hp & _ & Hr & _).
  split; [exact Hp | exact Hr].
Defined.

End DatePicker.

(** ** Pages that use the account service *)
Section Pages.
Import Types Contract Shapes.

(** X16: the home page registers at most once.  Once a run of [initUser]
    has left credentials behind (they were there already, or registration
    succeeded), a later run on any state of the page sends no request,
    changes nothing stored, and shows the same user name. *)
Theorem home_registers_once (auth : AuthService.t) (st st' : HomePage.State) (w : World) :
  let first := HomePage.initUser auth st w in
  credentials first.2 <> None ->
  let second := HomePage.initUser auth st' first.2 in
  second.2 = first.2
  /\ HomePage.user second.1 = HomePage.user first.1
  /\ HomePage.loading second.1 = false.
Proof.
  cbv zeta. unfold HomePage.initUser, AuthService.getCredentials, AuthService.get_state.
  simpl. destruct (credentials w) as [c|] eqn:Hc; simpl.
  - intros _. by rewrite Hc.
  - pose proof (registerUser_ok_state auth w) as Hok.
    pose proof (registerUser_throw_same auth w) as Hthrow.
    destruct (AuthService.registerUser auth w) as [[u|e] w'] eqn:Hrun; simpl in *.
    + intros _. rewrite (Hok u eq_refl). done.
    + intros Hne. destruct (Hthrow e eq_refl) as (Hc' & _). congruence.
Qed.

Lemma home_registers_once_witness :
  let first := HomePage.initUser Scenario.auth HomePage.initial Scenario.w0 in
  let second := HomePage.initUser Scenario.auth HomePage.initial first.2 in
  credentials first.2 <> None
  /\ second.2 = first.2
  /\ HomePage.user second.1 = HomePage.user first.1
  /\ HomePage.loading second.1 = false.
Proof.
  cbv zeta.
  assert (H : credentials (HomePage.initUser Scenario.auth HomePage.initial
                             Scenario.w0).2 <> None) by (vm_compute; discriminate).
  split; [exact H|].
  exact (home_registers_once Scenario.auth HomePage.initial HomePage.initial
           Scenario.w0 H).
Defined.

(** X17: the join page registers every time.  Whatever credentials are
    stored, a successful [createAccount] sends [POST /join], shows the new
    user name and key, and replaces the stored credentials by the new user
    with that key as token and an empty project list. *)
Theorem join_replaces_account (auth : AuthService.t) (st : JoinPage.State)
        (w : World) (u : User) :
  (AuthService.registerUser auth w).1 = Ok u ->
  let run := JoinPage.createAccount auth st w in
  sent run.2 = sent w ++ [join_request auth]
  /\ JoinPage.user run.1 = Some (username u, api_key u)
  /\ JoinPage.loading run.1 = false
  /\ credentials run.2 = Some (mkStoredCredentials u (api_key u) (VArr [])).
Proof.
  intros Hu. cbv zeta. unfold JoinPage.createAccount.
  pose proof (registerUser_ok_state auth w u Hu) as Hok.
  pose proof (registerUser_sent auth w) as Hsent.
  destruct (AuthService.registerUser auth w) as [[u'|e] w'] eqn:Hrun; simpl in *;
    [|done]. injection Hu as <-. done.
Qed.

Lemma join_replaces_account_witness :
  let u := mkUser (VStr "u1") (VStr "ada") (VStr "tok-u1") in
  let run := JoinPage.createAccount Scenario.auth JoinPage.initial Scenario.w_created in
  (AuthService.registerUser Scenario.auth Scenario.w_created).1 = Ok u
  /\ sent run.2 = sent Scenario.w_created ++ [join_request Scenario.auth]
  /\ JoinPage.user run.1 = Some (username u, api_key u)
  /\ JoinPage.loading run.1 = false
  /\ credentials run.2 = Some (mkStoredCredentials u (api_key u) (VArr [])).
Proof.
  cbv zeta.
  assert (H : (AuthService.registerUser Scenario.auth Scenario.w_created).1
              = Ok (mkUser (VStr "u1") (VStr "ada") (VStr "tok-u1")))
    by (vm_compute; reflexivity).
  split; [exact H|].
  exact (join_replaces_account Scenario.auth JoinPage.initial Scenario.w_created _ H).
Defined.

(** X18: after Logout on the projects page nothing is fetched any more:
    the credentials and their stored document are gone and the page goes to
    [/]; a projects page mounted after that loads its list by sending no
    request and going to [/join]; and viewing a key sends no request, shows
    no key and reports [Not authenticated]. *)
Theorem logout_then_nothing_is_fetched (auth : AuthService.t) (project : Project)
        (st : ProjectsPage.State) (w : World) :
  let out := ProjectsPage.handleLogout st w in
  let reload := ProjectsPage.loadProjects auth out.1 out.2 in
  let view := ProjectsPage.handleViewApiKeys auth project out.1 out.2 in
  ProjectsPage.navigated out.1 = Some "/"
  /\ credentials out.2 = None
  /\ localStorage out.2 !! AuthService.STORAGE_KEY = None
  /\ sent out.2 = sent w
  /\ reload.2 = out.2
  /\ ProjectsPage.navigated reload.1 = Some "/join"
  /\ ProjectsPage.projects reload.1 = ProjectsPage.projects st
  /\ view.2 = out.2
  /\ ProjectsPage.projectApiKey view.1 = VStr ""
  /\ ProjectsPage.error view.1 = Some (Error "Not authenticated").
Proof.
  cbv zeta. simpl. rewrite lookup_delete_eq. by repeat split.
Qed.


End Pages.

(** ** The service list and the page buttons *)
Section ServicesAndButtons.
Import Types Contract Shapes LogsPage.

Lemma getServices_run (URL_valid : string -> bool) (api : ApiService.t)
      (backend : string) (w : World) :
  backend <> "s3" ->
  URL_valid (ApiService.baseUrl api +:+ "/logs/services") = true ->
  sent (ApiService.getServices URL_valid api (Some backend) w).2
  = sent w ++ [services_request api backend]
  /\ (ApiService.getServices URL_valid api (Some backend) w).1
     = body_or_error (server w (sent w) (services_request api backend)).
Proof.
  intros Hb Hv. rewrite getServices_other by congruence.
  by rewrite request_sent, request_result, services_url.
Qed.

Lemma getServices_invalid (URL_valid : string -> bool) (api : ApiService.t)
      (backend : string) (w : World) :
  backend <> "s3" ->
  URL_valid (ApiService.baseUrl api +:+ "/logs/services") = false ->
  ApiService.getServices URL_valid api (Some backend) w = (Throw TypeError, w).
Proof.
  intros Hb Hv. rewrite getServices_other by congruence. by apply request_invalid.
Qed.

(** X21: one run of [loadServices] makes exactly one call of
    [setAvailableServices], when its call of [getServices] has settled, and
    none before.  For ['s3'] the list it passes is empty and nothing is
    sent.  For any other backend, when the URL constructor accepts the base
    with [/logs/services], one [GET /logs/services] is sent and the list
    passed is the [services] field of an ok answer, or the empty list when
    the call fails; when the constructor refuses the base, nothing is sent
    and the list passed is empty. *)
Theorem loadServices_outcomes (URL_valid : string -> bool) (api : ApiService.t)
        (backend : string) (w : World) :
  let run := LogsScreen.loadServices URL_valid api backend w in
  let req := services_request api backend in
  LogsScreen.at_once run.1 = []
  /\ (exists services, LogsScreen.on_settle run.1
                        = [LogsScreen.SetAvailableServices services])
  /\ if bool_decide (backend = "s3") then
       run = (LogsScreen.mkRun [] [LogsScreen.SetAvailableServices (VArr [])], w)
     else if URL_valid (ApiService.baseUrl api +:+ "/logs/services") then
       sent run.2 = sent w ++ [req]
       /\ LogsScreen.on_settle run.1
          = [LogsScreen.SetAvailableServices
               match field_or_error "services" (server w (sent w) req) with
               | Ok services => services
               | Throw _ => VArr []
               end]
     else
       run = (LogsScreen.mkRun [] [LogsScreen.SetAvailableServices (VArr [])], w).
Proof.
  cbv zeta. split; [|split].
  - unfold LogsScreen.loadServices.
    by destruct (LogService.getServices URL_valid api (Some backend) w) as [[v|e] w'].
  - unfold LogsScreen.loadServices.
    destruct (LogService.getServices URL_valid api (Some backend) w) as [[v|e] w'];
      simpl; eauto.
  - case_bool_decide as Hb; [by subst backend|].
    destruct (URL_valid (ApiService.baseUrl api +:+ "/logs/services")) eqn:Hv.
    + destruct (getServices_run URL_valid api backend w Hb Hv) as [Hsent Hres].
      unfold LogsScreen.loadServices, LogService.getServices, LogService.logged,
        try_catch, bind, get_prop, throw, field_or_error.
      rewrite <- Hres.
      destruct (ApiService.getServices URL_valid api (Some backend) w) as [[b|e] w'];
        simpl in *; [|done].
      by destruct (read_prop b "services").
    + unfold LogsScreen.loadServices, LogService.getServices, LogService.logged,
        try_catch, bind.
      by rewrite getServices_invalid.
Qed.

Example loadServices_relative_base :
  LogsScreen.loadServices Scenario.url_is_absolute Scenario.relative "sqlite"
    Scenario.w_shapeless
  = (LogsScreen.mkRun [] [LogsScreen.SetAvailableServices (VArr [])],
     Scenario.w_shapeless).
Proof. reflexivity. Qed.

Lemma run_app (st : State) (es es' : list event) :
  run st (es ++ es') = run (run st es) es'.
Proof. apply fold_left_app. Qed.

(** Finished loads change the total and nothing else. *)
Lemma run_loads (totals : list Z) (st : State) :
  let st' := run st (List.map Loaded totals) in
  page (pagination st') = page (pagination st)
  /\ size (pagination st') = size (pagination st)
  /\ filters st' = filters st
  /\ storageBackend st' = storageBackend st.
Proof.
  cbv zeta. revert st. induction totals as [|t totals IH]; intros st; simpl; [done|].
  destruct (IH (loaded t st)) as (-> & -> & -> & ->). done.
Qed.

(** X22: Next and Previous undo each other on the page number, through the
    loads that the clicks set off, for loads that report integer totals.
    On a page from 1 on with Next enabled: a click on Next, any number of
    finished loads, a click on Previous and any number of finished loads
    give back the page number there was, with the page size, the filters and
    the backend unchanged; the total is whatever the loads reported.  With
    Previous enabled, Previous followed by Next does the same when the
    page there was is not beyond the last page of the total that stands at
    the click on Next. *)
Theorem next_previous_round_trip (st : State) (loads1 loads2 : list Z) :
  1 <= page (pagination st) ->
  let back st' :=
    page (pagination st') = page (pagination st)
    /\ size (pagination st') = size (pagination st)
    /\ filters st' = filters st
    /\ storageBackend st' = storageBackend st in
  (next_disabled st = false ->
   back (run st ([ClickNext] ++ List.map Loaded loads1
                 ++ [ClickPrevious] ++ List.map Loaded loads2)))
  /\ (previous_disabled st = false ->
      page (pagination st)
      <= totalPages (run st ([ClickPrevious] ++ List.map Loaded loads1)) ->
      back (run st ([ClickPrevious] ++ List.map Loaded loads1
                    ++ [ClickNext] ++ List.map Loaded loads2))).
Proof.
  intros Hp. cbv zeta. split.
  - intros Hn.
    rewrite !run_app.
    set (st1 := run st [ClickNext]).
    assert (H1 : page (pagination st1) = page (pagination st) + 1
                 /\ size (pagination st1) = size (pagination st)
                 /\ filters st1 = filters st /\ storageBackend st1 = storageBackend st).
    { subst st1. simpl. rewrite Hn. simpl. unfold next_disabled in Hn.
      apply Z.leb_gt in Hn. repeat split; lia. }
    destruct H1 as (Hp1 & Hs1 & Hf1 & Hb1).
    set (st2 := run st1 (List.map Loaded loads1)).
    destruct (run_loads loads1 st1) as (Hp2 & Hs2 & Hf2 & Hb2). fold st2 in Hp2, Hs2, Hf2, Hb2.
    set (st3 := run st2 [ClickPrevious]).
    assert (H3 : page (pagination st3) = page (pagination st)
                 /\ size (pagination st3) = size (pagination st2)
                 /\ filters st3 = filters st2 /\ storageBackend st3 = storageBackend st2).
    { subst st3. simpl. unfold previous_disabled.
      destruct (Z.eqb_spec (page (pagination st2)) 1) as [E|E]; [lia|].
      simpl. repeat split; lia. }
    destruct H3 as (Hp3 & Hs3 & Hf3 & Hb3).
    destruct (run_loads loads2 st3) as (-> & -> & -> & ->).
    repeat split; congruence.
  - intros Hd Hle.
    rewrite !run_app in *.
    set (st1 := run st [ClickPrevious]) in *.
    assert (H1 : page (pagination st1) = page (pagination st) - 1
                 /\ size (pagination st1) = size (pagination st)
                 /\ filters st1 = filters st /\ storageBackend st1 = storageBackend st).
    { subst st1. simpl. rewrite Hd. simpl. unfold previous_disabled in Hd.
      apply Z.eqb_neq in Hd. repeat split; lia. }
    destruct H1 as (Hp1 & Hs1 & Hf1 & Hb1).
    set (st2 := run st1 (List.map Loaded loads1)) in *.
    destruct (run_loads loads1 st1) as (Hp2 & Hs2 & Hf2 & Hb2). fold st2 in Hp2, Hs2, Hf2, Hb2.
    set (st3 := run st2 [ClickNext]).
    assert (H3 : page (pagination st3) = page (pagination st)
                 /\ size (pagination st3) = size (pagination st2)
                 /\ filters st3 = filters st2 /\ storageBackend st3 = storageBackend st2).
    { subst st3. simpl. unfold next_disabled.
      destruct (Z.leb_spec (totalPages st2) (page (pagination st2))) as [E|E]; [lia|].
      simpl. repeat split; lia. }
    destruct H3 as (Hp3 & Hs3 & Hf3 & Hb3).
    destruct (run_loads loads2 st3) as (-> & -> & -> & ->).
    repeat split; congruence.
Qed.

Lemma next_previous_round_trip_witness :
  let st := run initial [Loaded 120; ClickNext] in
  (page (pagination st) = 2
   /\ page (pagination (run st [ClickNext; Loaded 130; ClickPrevious; Loaded 140])) = 2
   /\ total (pagination (run st [ClickNext; Loaded 130; ClickPrevious; Loaded 140])) = 140)
  /\ page (pagination (run st [ClickPrevious; Loaded 130; ClickNext; Loaded 140])) = 2.
Proof.
  cbv zeta.
  assert (Hp : 1 <= page (pagination (run initial [Loaded 120; ClickNext])))
    by (vm_compute; congruence).
  destruct (next_previous_round_trip (run initial [Loaded 120; ClickNext])
              [130] [140] Hp) as [Hnext Hprev].
  split; [split; [reflexivity|split; [|reflexivity]]|].
  - apply Hnext. reflexivity.
  - apply Hprev; [reflexivity | vm_compute; congruence].
Defined.

End ServicesAndButtons.
